(** * TradeStation API wrapper: request construction and response unwrapping

    A shallow embedding of the four wrapper classes of the repository
    ([Accounts], [Orders], [Symbols], [MarketData]) together with the small
    part of the JavaScript runtime and of the axios HTTP client they rely
    on.  Every wrapper method is one axios call followed by a [.then] /
    [.catch] chain (or an [async] body with [try] / [catch]); the embedding
    keeps that shape: a method is a computation in a promise monad that
    threads the observable effects (requests sent, console output, stream
    listeners attached) and settles as fulfilled or rejected. *)

From Stdlib Require Import ZArith String Ascii List Bool DecimalString.
Import ListNotations.
Open Scope string_scope.
Open Scope Z_scope.
Set Warnings "-register-all".

(** ** The JavaScript values the wrappers handle *)

Module JS.

(** Arguments of the wrapper methods.  The JSDoc of every path and query
    argument is [string], [number] or [boolean]; an argument the caller
    leaves out is [Undefined], and two defaults in the source are [null].
    Numbers are integers here: the wrappers only copy and print them. *)
Inductive scalar :=
| Undefined
| Null
| Bool (b : bool)
| Num (n : Z)
| Str (s : string).

(** Response data and request bodies.  [VObj] lists the own properties of an
    object, the first binding of a key being its value.  [VStream] is the
    readable stream axios hands out under [responseType: 'stream']; [source]
    is the body the server sends through it. *)
Inductive value :=
| VUndefined
| VNull
| VBool (b : bool)
| VNum (n : Z)
| VStr (s : string)
| VArr (items : list value)
| VObj (fields : list (string * value))
| VStream (source : value).

(** [typeof a === 'undefined'] *)
Definition is_undefined (a : scalar) : bool :=
  match a with Undefined => true | _ => false end.

(** [a === null || typeof a === 'undefined'] *)
Definition nullish (a : scalar) : bool :=
  match a with Undefined | Null => true | _ => false end.

(** Truthiness, as tested by [a ? x : y]. *)
Definition truthy (a : scalar) : bool :=
  match a with
  | Undefined | Null => false
  | Bool b => b
  | Num n => negb (n =? 0)
  | Str s => negb (s =? "")%string
  end.

(** A default parameter value [f(a = d)] applies exactly when the argument
    is [undefined]. *)
Definition default (a d : scalar) : scalar :=
  if is_undefined a then d else a.

Definition string_of_Z (n : Z) : string := NilZero.string_of_int (Z.to_int n).

(** String conversion, as performed by a template literal [`${a}`]. *)
Definition to_string (a : scalar) : string :=
  match a with
  | Undefined => "undefined"
  | Null => "null"
  | Bool true => "true"
  | Bool false => "false"
  | Num n => string_of_Z n
  | Str s => s
  end.

Fixpoint lookup {A : Type} (k : string) (l : list (string * A)) : option A :=
  match l with
  | [] => None
  | (k', v) :: l' => if (k =? k')%string then Some v else lookup k l'
  end.

(** What a thrown value can be in these files: the error axios rejects
    with, the [TypeError] of a property read on [undefined] or [null], and
    the [new Error(...)] the async methods build. *)
Inductive error :=
| AxiosError (message : string) (status : option Z)
| TypeError (message : string)
| Error (message : string).

(** [error.message] *)
Definition message (e : error) : string :=
  match e with
  | AxiosError m _ => m
  | TypeError m => m
  | Error m => m
  end.

(** Property read [v.k] (own data properties only; none of the keys the
    wrappers read is a built-in member of strings, arrays or streams).
    Reading a property of [undefined] or [null] throws. *)
Definition member (v : value) (k : string) : error + value :=
  match v with
  | VUndefined =>
      inl (TypeError ("Cannot read properties of undefined (reading '" ++ k ++ "')"))
  | VNull =>
      inl (TypeError ("Cannot read properties of null (reading '" ++ k ++ "')"))
  | VObj fields =>
      inr (match lookup k fields with Some x => x | None => VUndefined end)
  | _ => inr VUndefined
  end.

(** Values whose properties can be read without a throw. *)
Definition readable (v : value) : bool :=
  match v with VUndefined | VNull => false | _ => true end.

(** [k in v] for an object, [false] for everything else. *)
Definition has_key (v : value) (k : string) : bool :=
  match v with
  | VObj fields => match lookup k fields with Some _ => true | None => false end
  | _ => false
  end.

(** *** [Date.prototype.toISOString] *)

Fixpoint zeros (w : nat) : string :=
  match w with O => "" | S w' => String "0" (zeros w') end.

(** Decimal digits of [n >= 0], left-padded with zeros to width [w]. *)
Definition pad (w : nat) (n : Z) : string :=
  let s := string_of_Z n in
  zeros (w - String.length s) ++ s.

(** Proleptic Gregorian date of a day count since 1970-01-01. *)
Definition civil_from_days (days : Z) : Z * Z * Z :=
  let z := days + 719468 in
  let era := z / 146097 in
  let doe := z mod 146097 in
  let yoe := (doe - doe / 1460 + doe / 36524 - doe / 146096) / 365 in
  let doy := doe - (365 * yoe + yoe / 4 - yoe / 100) in
  let mp := (5 * doy + 2) / 153 in
  let d := doy - (153 * mp + 2) / 5 + 1 in
  let m := if mp <? 10 then mp + 3 else mp - 9 in
  let y := yoe + era * 400 + (if m <=? 2 then 1 else 0) in
  (y, m, d).

(** [new Date(ms).toISOString()], [ms] being milliseconds since the epoch. *)
Definition toISOString (ms : Z) : string :=
  let '(y, m, d) := civil_from_days (ms / 86400000) in
  let t := ms mod 86400000 in
  let year :=
    if (0 <=? y) && (y <=? 9999) then pad 4 y
    else (if y <? 0 then "-" else "+") ++ pad 6 (Z.abs y) in
  year ++ "-" ++ pad 2 m ++ "-" ++ pad 2 d ++ "T" ++
  pad 2 (t / 3600000) ++ ":" ++ pad 2 (t / 60000 mod 60) ++ ":" ++
  pad 2 (t / 1000 mod 60) ++ "." ++ pad 3 (t mod 1000) ++ "Z".

End JS.

(** ** The axios client and the promise it returns *)

Module Axios.
Import JS.

Inductive verb := GET | POST | PUT.

(** The request config object passed to [axios.get] / [axios.post] /
    [axios.put].  [params] is [None] when the config has no [params] key;
    the list keeps the order the properties were written in. *)
Record config := {
  headers : list (string * string);
  params : option (list (string * scalar));
  responseType : option string
}.

Record request := {
  method : verb;
  url : string;
  body : option value;
  cfg : config
}.

(** What comes back from the server, and the response object axios builds
    from it. *)
Record reply := { code : Z; payload : value }.
Record response := { status : Z; data : value }.

(** The surroundings of a call: the server behind the transport ([None] is a
    transport failure, no reply at all) and the clock [new Date()] reads,
    in milliseconds since the epoch. *)
Record world := {
  transport : request -> option reply;
  clock : Z
}.

(** The listener [streamOrders] attaches to the response stream. *)
Inductive listener := LogChunk.

Inductive console_entry :=
| ConsoleError (label : string) (e : error).

(** Observable effects of a call, oldest first. *)
Record effects := {
  sent : list request;
  console : list console_entry;
  listeners : list (value * string * listener)
}.

Definition no_effects : effects :=
  {| sent := []; console := []; listeners := [] |}.

Inductive settled (A : Type) :=
| Fulfilled (a : A)
| Rejected (e : error).
Arguments Fulfilled {A} a.
Arguments Rejected {A} e.

Definition Promise (A : Type) : Type := world -> effects -> settled A * effects.

Definition resolve {A} (a : A) : Promise A := fun _ fx => (Fulfilled a, fx).

Definition throw {A} (e : error) : Promise A := fun _ fx => (Rejected e, fx).

(** [p.then(f)]; also [const x = await p; ...] inside an async body. *)
Definition then_ {A B} (p : Promise A) (f : A -> Promise B) : Promise B :=
  fun w fx =>
    match p w fx with
    | (Fulfilled a, fx') => f a w fx'
    | (Rejected e, fx') => (Rejected e, fx')
    end.

(** [p.catch(h)]; also [try { p } catch (error) { h }]. *)
Definition catch {A} (p : Promise A) (h : error -> Promise A) : Promise A :=
  fun w fx =>
    match p w fx with
    | (Fulfilled a, fx') => (Fulfilled a, fx')
    | (Rejected e, fx') => h e w fx'
    end.

Definition of_result {A} (r : error + A) : Promise A :=
  match r with inl e => throw e | inr a => resolve a end.

(** [v.k] inside a handler. *)
Definition get (v : value) (k : string) : Promise value := of_result (member v k).

(** [console.error(label, error)] *)
Definition console_error (label : string) (e : error) : Promise unit :=
  fun _ fx =>
    (Fulfilled tt,
     {| sent := sent fx;
        console := console fx ++ [ConsoleError label e];
        listeners := listeners fx |}).

(** [new Date()] *)
Definition new_Date : Promise Z := fun w fx => (Fulfilled (clock w), fx).

(** [stream.on(event, callback)]: a stream records the listener; on any
    other value the read of [on] throws or yields something that is not a
    function. *)
Definition on (stream : value) (event : string) (callback : listener) : Promise unit :=
  match stream with
  | VStream _ =>
      fun _ fx =>
        (Fulfilled tt,
         {| sent := sent fx;
            console := console fx;
            listeners := listeners fx ++ [(stream, event, callback)] |})
  | VUndefined | VNull =>
      then_ (get stream "on") (fun _ => resolve tt)
  | _ => throw (TypeError "response.data.on is not a function")
  end.

(** axios' default [validateStatus]. *)
Definition validateStatus (status : Z) : bool :=
  (200 <=? status) && (status <? 300).

(** The response object for a reply: under [responseType: 'stream'] the
    data is the stream, otherwise the parsed body. *)
Definition respond (req : request) (r : reply) : response :=
  {| status := code r;
     data := match responseType (cfg req) with
             | Some "stream"%string => VStream (payload r)
             | _ => payload r
             end |}.

(** How axios settles a request given what the transport brought back:
    fulfilled with the response on a 2xx status, rejected on a transport
    failure or any other status. *)
Definition settle (req : request) (o : option reply) : settled response :=
  match o with
  | None => Rejected (AxiosError "Network Error" None)
  | Some r =>
      if validateStatus (code r) then Fulfilled (respond req r)
      else Rejected (AxiosError ("Request failed with status code "
                                 ++ string_of_Z (code r)) (Some (code r)))
  end.

(** One request through the transport; it is sent once. *)
Definition dispatch (req : request) : Promise response :=
  fun w fx =>
    (settle req (transport w req),
     {| sent := sent fx ++ [req];
        console := console fx;
        listeners := listeners fx |}).

Definition axios_get (url : string) (c : config) : Promise response :=
  dispatch {| method := GET; url := url; body := None; cfg := c |}.

Definition axios_post (url : string) (b : value) (c : config) : Promise response :=
  dispatch {| method := POST; url := url; body := Some b; cfg := c |}.

Definition axios_put (url : string) (b : value) (c : config) : Promise response :=
  dispatch {| method := PUT; url := url; body := Some b; cfg := c |}.

(** The response object as the value a promise is fulfilled with, for the
    methods that return the axios promise itself. *)
Definition response_value (r : response) : value :=
  VObj [("data", data r); ("status", VNum (status r))].

(** A method that returns the axios promise hands the caller the whole
    response object. *)
Definition whole (p : Promise response) : Promise value :=
  then_ p (fun r => resolve (response_value r)).

(** Run a call from a clean slate: how the promise settles, and the
    requests that went out. *)
Definition run {A} (p : Promise A) (w : world) : settled A * effects :=
  p w no_effects.

Definition outcome {A} (p : Promise A) (w : world) : settled A := fst (run p w).

Definition issued {A} (p : Promise A) (w : world) : list request :=
  sent (snd (run p w)).

(** *** Query serialization

    How axios turns the [params] of a config into the query string of the
    URL it requests: a parameter whose value is [null] or [undefined] is
    skipped, the others are written [key=value] in order, joined by [&],
    and appended after [?] (or [&] when the URL already has a query). *)

Definition effective (ps : list (string * scalar)) : list (string * scalar) :=
  filter (fun kv => negb (nullish (snd kv))) ps.

Definition hex_digit (n : N) : ascii :=
  match n with
  | 0%N => "0" | 1%N => "1" | 2%N => "2" | 3%N => "3" | 4%N => "4"
  | 5%N => "5" | 6%N => "6" | 7%N => "7" | 8%N => "8" | 9%N => "9"
  | 10%N => "A" | 11%N => "B" | 12%N => "C" | 13%N => "D" | 14%N => "E"
  | _ => "F"
  end%char.

Definition between (lo hi c : N) : bool := ((lo <=? c) && (c <=? hi))%N.

(** Characters [encodeURIComponent] leaves alone, and those axios restores
    after it ([:], [$], [,], [[], []]). *)
Definition kept (c : N) : bool :=
  between 65 90 c || between 97 122 c || between 48 57 c ||
  existsb (N.eqb c) [45; 95; 46; 33; 126; 42; 39; 40; 41; 58; 36; 44; 91; 93]%N.

Definition encode_char (a : ascii) : string :=
  let c := N_of_ascii a in
  if kept c then String a ""
  else if (c =? 32)%N then "+"
  else String "%" (String (hex_digit (c / 16)) (String (hex_digit (c mod 16)) "")).

Fixpoint encode (s : string) : string :=
  match s with
  | EmptyString => ""
  | String a s' => encode_char a ++ encode s'
  end.

Definition serialize (ps : list (string * scalar)) : string :=
  String.concat "&"
    (map (fun kv => encode (fst kv) ++ "=" ++ encode (to_string (snd kv)))
         (effective ps)).

Fixpoint contains_char (c : ascii) (s : string) : bool :=
  match s with
  | EmptyString => false
  | String a s' => Ascii.eqb a c || contains_char c s'
  end.

Fixpoint before_char (c : ascii) (s : string) : string :=
  match s with
  | EmptyString => ""
  | String a s' => if Ascii.eqb a c then "" else String a (before_char c s')
  end.

Definition buildURL (url : string) (ps : option (list (string * scalar))) : string :=
  match ps with
  | None => url
  | Some l =>
      let q := serialize l in
      if (q =? "")%string then url
      else
        let u := before_char "#" url in
        u ++ (if contains_char "?" u then "&" else "?") ++ q
  end.

(** The URL that goes out on the wire for a request. *)
Definition wire_url (req : request) : string :=
  buildURL (url req) (params (cfg req)).

(** The query string of a URL: what follows the first [?]. *)
Fixpoint query_of (s : string) : string :=
  match s with
  | EmptyString => ""
  | String a s' => if Ascii.eqb a "?" then s' else query_of s'
  end.

(** The parameter names of a query string [k1=v1&k2=v2...]. *)
Fixpoint split_on (c : ascii) (s : string) : list string :=
  match s with
  | EmptyString => [""]
  | String a s' =>
      if Ascii.eqb a c then "" :: split_on c s'
      else match split_on c s' with
           | [] => [String a ""]
           | h :: t => String a h :: t
           end
  end.

Definition query_names (q : string) : list string :=
  if (q =? "")%string then []
  else map (before_char "=") (split_on "&" q).

(** Substring test. *)
Fixpoint includes (needle s : string) : bool :=
  String.prefix needle s ||
  match s with
  | EmptyString => false
  | String _ s' => includes needle s'
  end.

End Axios.

Import JS Axios.

Notation "x <- p ;; k" := (then_ p (fun x => k))
  (at level 61, p at next level, right associativity).

(** ** accounts.jsx: class [Accounts]

    Every method follows one pattern: build the URL from [this.baseUrl] and
    the arguments, [axios.get] it with the bearer token, read the result in
    [.then], and in [.catch] print the error and throw it again.  (The
    comment above [getHistoricalOrdersByOrderID] opens with [**] in the
    file; the method is embedded as the class member it is written to be.) *)

Module Accounts.

Record t := { baseUrl : string; token : scalar }.

Definition constructor (token : scalar) : t :=
  {| baseUrl := "https://api.tradestation.com/v3/brokerage"; token := token |}.

Definition getAccounts (this : t) : Promise value :=
  let url := baseUrl this ++ "/accounts" in
  catch
    (then_
       (axios_get url
          {| headers := [("Authorization", "Bearer " ++ to_string (token this))];
             params := None; responseType := None |})
       (fun response => get (data response) "Accounts"))
    (fun error =>
       _ <- console_error "Error fetching accounts:" error ;;
       throw error).

Definition getAccountBalances (this : t) (accountIds : scalar) : Promise value :=
  let url := baseUrl this ++ "/accounts/" ++ to_string accountIds ++ "/balances" in
  catch
    (then_
       (axios_get url
          {| headers := [("Authorization", "Bearer " ++ to_string (token this))];
             params := None; responseType := None |})
       (fun response => get (data response) "Balances"))
    (fun error =>
       _ <- console_error "Error fetching account balances:" error ;;
       throw error).

Definition getBalancesBOD (this : t) (accountIds : scalar) : Promise value :=
  let url := baseUrl this ++ "/accounts/" ++ to_string accountIds ++ "/bodbalances" in
  catch
    (then_
       (axios_get url
          {| headers := [("Authorization", "Bearer " ++ to_string (token this))];
             params := None; responseType := None |})
       (fun response => get (data response) "BODBalances"))
    (fun error =>
       _ <- console_error "Error fetching Beginning of Day Balances:" error ;;
       throw error).

Definition getHistoricalOrders (this : t) (accounts since pageSize nextToken : scalar)
  : Promise value :=
  let pageSize := default pageSize (Num 600) in
  let nextToken := default nextToken Null in
  let url := baseUrl this ++ "/accounts/" ++ to_string accounts ++ "/historicalorders" in
  catch
    (then_
       (axios_get url
          {| headers := [("Authorization", "Bearer " ++ to_string (token this))];
             params := Some [("since", since); ("pageSize", pageSize);
                             ("nextToken", nextToken)];
             responseType := None |})
       (fun response => resolve (data response)))
    (fun error =>
       _ <- console_error "Error fetching historical orders:" error ;;
       throw error).

Definition getHistoricalOrdersByOrderID (this : t) (accounts orderIds since : scalar)
  : Promise value :=
  let url := baseUrl this ++ "/accounts/" ++ to_string accounts ++ "/historicalorders/"
             ++ to_string orderIds ++ "?since=" ++ to_string since in
  catch
    (then_
       (axios_get url
          {| headers := [("Authorization", "Bearer " ++ to_string (token this))];
             params := None; responseType := None |})
       (fun response => resolve (data response)))
    (fun error =>
       _ <- console_error "Error fetching historical orders:" error ;;
       throw error).

Definition getOrders (this : t) (accounts pageSize nextToken : scalar) : Promise value :=
  let pageSize := default pageSize (Num 600) in
  let url := baseUrl this ++ "/accounts/" ++ to_string accounts ++ "/orders" in
  let params := [("pageSize", pageSize); ("nextToken", nextToken)] in
  catch
    (then_
       (axios_get url
          {| headers := [("Authorization", "Bearer " ++ to_string (token this))];
             params := Some params; responseType := None |})
       (fun response => get (data response) "Orders"))
    (fun error =>
       _ <- console_error "Error fetching orders:" error ;;
       throw error).

Definition getOrdersByOrderID (this : t) (accountIds orderIds : scalar) : Promise value :=
  let url := baseUrl this ++ "/accounts/" ++ to_string accountIds ++ "/orders/"
             ++ to_string orderIds in
  catch
    (then_
       (axios_get url
          {| headers := [("Authorization", "Bearer " ++ to_string (token this))];
             params := None; responseType := None |})
       (fun response => get (data response) "Orders"))
    (fun error =>
       _ <- console_error "Error fetching orders:" error ;;
       throw error).

Definition getPositions (this : t) (accounts symbol : scalar) : Promise value :=
  let url := baseUrl this ++ "/accounts/" ++ to_string accounts ++ "/positions" in
  let params := if truthy symbol then [("symbol", symbol)] else [] in
  catch
    (then_
       (axios_get url
          {| headers := [("Authorization", "Bearer " ++ to_string (token this))];
             params := Some params; responseType := None |})
       (fun response => get (data response) "Positions"))
    (fun error =>
       _ <- console_error "Error fetching positions:" error ;;
       throw error).

Definition getWallets (this : t) (accountID : scalar) : Promise value :=
  let url := baseUrl this ++ "/accounts/" ++ to_string accountID ++ "/wallets" in
  catch
    (then_
       (axios_get url
          {| headers := [("Authorization", "Bearer " ++ to_string (token this))];
             params := None; responseType := None |})
       (fun response => get (data response) "Wallets"))
    (fun error =>
       _ <- console_error "Error fetching wallets:" error ;;
       throw error).

Definition streamWallets (this : t) (account : scalar) : Promise value :=
  let url := baseUrl this ++ "/stream/accounts/" ++ to_string account ++ "/wallets" in
  catch
    (then_
       (axios_get url
          {| headers := [("Authorization", "Bearer " ++ to_string (token this));
                         ("Accept", "application/vnd.tradestation.streams.v2+json")];
             params := None; responseType := Some "stream" |})
       (fun response => resolve (data response)))
    (fun error =>
       _ <- console_error "Error streaming wallets:" error ;;
       throw error).

(** The [.then] handler has a block body without [return]: it attaches the
    logging listener and yields [undefined]. *)
Definition streamOrders (this : t) (accountIds : scalar) : Promise value :=
  let url := baseUrl this ++ "/stream/accounts/" ++ to_string accountIds ++ "/orders" in
  catch
    (then_
       (axios_get url
          {| headers := [("Authorization", "Bearer " ++ to_string (token this))];
             params := None; responseType := Some "stream" |})
       (fun response =>
          _ <- on (data response) "data" LogChunk ;;
          resolve VUndefined))
    (fun error =>
       _ <- console_error "Error streaming orders:" error ;;
       throw error).

Definition streamOrdersByOrderId (this : t) (accountIds ordersIds : scalar)
  : Promise value :=
  let url := baseUrl this ++ "/stream/accounts/" ++ to_string accountIds ++ "/orders/"
             ++ to_string ordersIds in
  catch
    (then_
       (axios_get url
          {| headers := [("Authorization", "Bearer " ++ to_string (token this))];
             params := None; responseType := None |})
       (fun response => get (data response) "Orders"))
    (fun error =>
       _ <- console_error "Error streaming orders by order ID:" error ;;
       throw error).

Definition streamPositions (this : t) (accountIds changes : scalar) : Promise value :=
  let changes := default changes (Bool false) in
  let url := baseUrl this ++ "/stream/accounts/" ++ to_string accountIds ++ "/positions" in
  catch
    (then_
       (axios_get url
          {| headers := [("Authorization", "Bearer " ++ to_string (token this))];
             params := Some [("changes", changes)]; responseType := None |})
       (fun response => resolve (data response)))
    (fun error =>
       _ <- console_error "Error streaming positions:" error ;;
       throw error).

(** A call of one of the methods, with its arguments. *)
Inductive call :=
| GetAccounts
| GetAccountBalances (accountIds : scalar)
| GetBalancesBOD (accountIds : scalar)
| GetHistoricalOrders (accounts since pageSize nextToken : scalar)
| GetHistoricalOrdersByOrderID (accounts orderIds since : scalar)
| GetOrders (accounts pageSize nextToken : scalar)
| GetOrdersByOrderID (accountIds orderIds : scalar)
| GetPositions (accounts symbol : scalar)
| GetWallets (accountID : scalar)
| StreamWallets (account : scalar)
| StreamOrders (accountIds : scalar)
| StreamOrdersByOrderId (accountIds ordersIds : scalar)
| StreamPositions (accountIds changes : scalar).

Definition invoke (this : t) (c : call) : Promise value :=
  match c with
  | GetAccounts => getAccounts this
  | GetAccountBalances a => getAccountBalances this a
  | GetBalancesBOD a => getBalancesBOD this a
  | GetHistoricalOrders a s p n => getHistoricalOrders this a s p n
  | GetHistoricalOrdersByOrderID a o s => getHistoricalOrdersByOrderID this a o s
  | GetOrders a p n => getOrders this a p n
  | GetOrdersByOrderID a o => getOrdersByOrderID this a o
  | GetPositions a s => getPositions this a s
  | GetWallets a => getWallets this a
  | StreamWallets a => streamWallets this a
  | StreamOrders a => streamOrders this a
  | StreamOrdersByOrderId a o => streamOrdersByOrderId this a o
  | StreamPositions a c => streamPositions this a c
  end.

End Accounts.

(** ** class [Orders] *)

Module Orders.

Record t := { baseUrl : string; token : scalar }.

Definition constructor (token : scalar) : t :=
  {| baseUrl := "https://api.tradestation.com/v3/orderexecution"; token := token |}.

Definition confirmOrder (this : t) (order : value) : Promise value :=
  let url := baseUrl this ++ "/orderconfirm" in
  catch
    (then_
       (axios_post url order
          {| headers := [("Authorization", "Bearer " ++ to_string (token this));
                         ("Content-Type", "application/json")];
             params := None; responseType := None |})
       (fun response => get (data response) "Confirmations"))
    (fun error =>
       _ <- console_error "Error confirming order:" error ;;
       throw error).

Definition confirmGroupOrder (this : t) (groupOrder : value) : Promise value :=
  let url := baseUrl this ++ "/ordergroupconfirm" in
  catch
    (then_
       (axios_post url groupOrder
          {| headers := [("Authorization", "Bearer " ++ to_string (token this));
                         ("Content-Type", "application/json")];
             params := None; responseType := None |})
       (fun response => get (data response) "OrderConfirmResponses"))
    (fun error =>
       _ <- console_error "Error confirming group order:" error ;;
       throw error).

Definition placeGroupOrder (this : t) (groupOrder : value) : Promise value :=
  let url := baseUrl this ++ "/ordergroups" in
  catch
    (then_
       (axios_post url groupOrder
          {| headers := [("Authorization", "Bearer " ++ to_string (token this));
                         ("Content-Type", "application/json")];
             params := None; responseType := None |})
       (fun response => get (data response) "Orders"))
    (fun error =>
       _ <- console_error "Error placing group order:" error ;;
       throw error).

Definition placeOrder (this : t) (order : value) : Promise value :=
  let url := baseUrl this ++ "/orders" in
  catch
    (then_
       (axios_post url order
          {| headers := [("Authorization", "Bearer " ++ to_string (token this));
                         ("Content-Type", "application/json")];
             params := None; responseType := None |})
       (fun response => get (data response) "Orders"))
    (fun error =>
       _ <- console_error "Error placing order:" error ;;
       throw error).

Definition replaceOrder (this : t) (orderID : scalar) (replacementOrder : value) : Promise value :=
  let url := baseUrl this ++ "/orders/" ++ to_string orderID in
  catch
    (then_
       (axios_put url replacementOrder
          {| headers := [("Authorization", "Bearer " ++ to_string (token this));
                         ("Content-Type", "application/json")];
             params := None; responseType := None |})
       (fun response => resolve (data response)))
    (fun error =>
       _ <- console_error "Error replacing order:" error ;;
       throw error).

Definition getActivationTriggers (this : t) : Promise value :=
  let url := baseUrl this ++ "/activationtriggers" in
  catch
    (then_
       (axios_get url
          {| headers := [("Authorization", "Bearer " ++ to_string (token this))];
             params := None; responseType := None |})
       (fun response => get (data response) "ActivationTriggers"))
    (fun error =>
       _ <- console_error "Error getting activation triggers:" error ;;
       throw error).

Definition getRoutes (this : t) : Promise value :=
  let url := baseUrl this ++ "/routes" in
  catch
    (then_
       (axios_get url
          {| headers := [("Authorization", "Bearer " ++ to_string (token this))];
             params := None; responseType := None |})
       (fun response => get (data response) "Routes"))
    (fun error =>
       _ <- console_error "Error getting routes:" error ;;
       throw error).

Inductive call :=
| ConfirmOrder (order : value)
| ConfirmGroupOrder (groupOrder : value)
| PlaceGroupOrder (groupOrder : value)
| PlaceOrder (order : value)
| ReplaceOrder (orderID : scalar) (replacementOrder : value)
| GetActivationTriggers
| GetRoutes.

Definition invoke (this : t) (c : call) : Promise value :=
  match c with
  | ConfirmOrder o => confirmOrder this o
  | ConfirmGroupOrder g => confirmGroupOrder this g
  | PlaceGroupOrder g => placeGroupOrder this g
  | PlaceOrder o => placeOrder this o
  | ReplaceOrder i o => replaceOrder this i o
  | GetActivationTriggers => getActivationTriggers this
  | GetRoutes => getRoutes this
  end.

End Orders.

(** ** class [Symbols]

    Both methods return the axios promise itself: no handler is attached
    and the caller receives the whole response object. *)

Module Symbols.

Record t := { token : scalar; baseUrl : string }.

Definition constructor (token : scalar) : t :=
  {| token := token; baseUrl := "https://api.tradestation.com/v2/data/symbols" |}.

Definition suggestSymbols (this : t) (text top filter : scalar) : Promise response :=
  let url := baseUrl this ++ "/suggest/" ++ to_string text in
  let params := [("$top", top); ("$filter", filter)] in
  axios_get url
    {| params := Some params;
       headers := [("Authorization", "Bearer " ++ to_string (token this))];
       responseType := None |}.

Definition searchSymbols (this : t) (criteria : scalar) : Promise response :=
  let url := baseUrl this ++ "/search/" ++ to_string criteria in
  axios_get url
    {| headers := [("Authorization", "Bearer " ++ to_string (token this))];
       params := None; responseType := None |}.

Inductive call :=
| SuggestSymbols (text top filter : scalar)
| SearchSymbols (criteria : scalar).

Definition invoke (this : t) (c : call) : Promise value :=
  match c with
  | SuggestSymbols x n f => whole (suggestSymbols this x n f)
  | SearchSymbols x => whole (searchSymbols this x)
  end.

End Symbols.

(** ** class [MarketData]

    The [get...] methods are [async] functions whose [try] block awaits the
    request and reads the response; the [catch] block throws a new [Error]
    built from the message of the one caught.  The [stream...] methods
    return the axios promise itself, except [streamTickBars]. *)

Module MarketData.

Record t := { baseUrl : string; token : scalar }.

Definition constructor (token : scalar) : t :=
  {| baseUrl := "https://api.tradestation.com/v3/marketdata"; token := token |}.

Definition getBars (this : t)
  (symbol interval unit barsback firstdate lastdate sessiontemplate : scalar)
  : Promise value :=
  let interval := default interval (Str "1") in
  let unit := default unit (Str "Daily") in
  let barsback := default barsback (Str "1") in
  lastdate <- (if is_undefined lastdate
               then (d <- new_Date ;; resolve (Str (toISOString d)))
               else resolve lastdate) ;;
  let url := baseUrl this ++ "/barcharts/" ++ to_string symbol in
  let params := [("interval", interval); ("unit", unit); ("barsback", barsback);
                 ("firstdate", firstdate); ("lastdate", lastdate);
                 ("sessiontemplate", sessiontemplate)] in
  catch
    (response <- axios_get url
                   {| params := Some params;
                      headers := [("Authorization", "Bearer " ++ to_string (token this))];
                      responseType := None |} ;;
     resolve (data response))
    (fun error => throw (Error ("Error fetching bars: " ++ message error))).

Definition streamBars (this : t) (symbol interval unit barsback sessiontemplate : scalar) : Promise response :=
  let interval := default interval (Str "1") in
  let unit := default unit (Str "Daily") in
  let barsback := default barsback (Str "1") in
  let url := baseUrl this ++ "/stream/barcharts/" ++ to_string symbol in
  let params := [("interval", interval); ("unit", unit); ("barsback", barsback);
                 ("sessiontemplate", sessiontemplate)] in
  axios_get url
    {| params := Some params;
       headers := [("Authorization", "Bearer " ++ to_string (token this));
                   ("Accept", "application/vnd.tradestation.streams.v2+json")];
       responseType := Some "stream" |}.

Definition getCryptoSymbolNames (this : t) : Promise value :=
  let url := baseUrl this ++ "/symbollists/cryptopairs/symbolnames" in
  catch
    (response <- axios_get url
                   {| headers := [("Authorization", "Bearer " ++ to_string (token this))];
                      params := None; responseType := None |} ;;
     get (data response) "SymbolNames")
    (fun error => throw (Error ("Error fetching crypto symbol names: " ++ message error))).

Definition getSymbolDetails (this : t) (symbols : scalar) : Promise value :=
  let url := baseUrl this ++ "/symbols/" ++ to_string symbols in
  catch
    (response <- axios_get url
                   {| headers := [("Authorization", "Bearer " ++ to_string (token this))];
                      params := None; responseType := None |} ;;
     resolve (data response))
    (fun error => throw (Error ("Error fetching symbol details: " ++ message error))).

Definition getOptionExpirations (this : t) (underlying strikePrice : scalar) : Promise value :=
  let strikePrice := default strikePrice Null in
  let url := baseUrl this ++ "/options/expirations/" ++ to_string underlying in
  let params := if truthy strikePrice then [("strikePrice", strikePrice)] else [] in
  catch
    (response <- axios_get url
                   {| headers := [("Authorization", "Bearer " ++ to_string (token this))];
                      params := Some params; responseType := None |} ;;
     get (data response) "Expirations")
    (fun error => throw (Error ("Error fetching option expirations: " ++ message error))).

Definition getOptionRiskReward (this : t) (riskRewardInput : value) : Promise value :=
  let url := baseUrl this ++ "/options/riskreward" in
  catch
    (response <- axios_post url riskRewardInput
                   {| headers := [("Content-Type", "application/json");
                                  ("Authorization", "Bearer " ++ to_string (token this))];
                      params := None; responseType := None |} ;;
     resolve (data response))
    (fun error =>
       throw (Error ("Error analyzing option risk vs. reward: " ++ message error))).

Definition getOptionSpreadTypes (this : t) : Promise value :=
  let url := baseUrl this ++ "/options/spreadtypes" in
  catch
    (response <- axios_get url
                   {| headers := [("Authorization", "Bearer " ++ to_string (token this))];
                      params := None; responseType := None |} ;;
     get (data response) "SpreadTypes")
    (fun error => throw (Error ("Error fetching option spread types: " ++ message error))).

Definition getOptionStrikes (this : t) (underlying spreadType strikeInterval expiration expiration2 : scalar) : Promise value :=
  let spreadType := default spreadType (Str "Single") in
  let strikeInterval := default strikeInterval (Num 1) in
  let url := baseUrl this ++ "/options/strikes/" ++ to_string underlying in
  let params := [("spreadType", spreadType); ("strikeInterval", strikeInterval);
                 ("expiration", expiration); ("expiration2", expiration2)] in
  catch
    (response <- axios_get url
                   {| headers := [("Authorization", "Bearer " ++ to_string (token this))];
                      params := Some params; responseType := None |} ;;
     SpreadType <- get (data response) "SpreadType" ;;
     Strikes <- get (data response) "Strikes" ;;
     resolve (VObj [("SpreadType", SpreadType); ("Strikes", Strikes)]))
    (fun error => throw (Error ("Error fetching option strikes: " ++ message error))).

Definition streamOptionChain (this : t) (underlying expiration expiration2 strikeProximity spreadType riskFreeRate
   priceCenter strikeInterval enableGreeks strikeRange optionType : scalar) : Promise response :=
  let strikeProximity := default strikeProximity (Num 5) in
  let spreadType := default spreadType (Str "Single") in
  let strikeInterval := default strikeInterval (Num 1) in
  let enableGreeks := default enableGreeks (Bool true) in
  let strikeRange := default strikeRange (Str "All") in
  let optionType := default optionType (Str "All") in
  let url := baseUrl this ++ "/stream/options/chains/" ++ to_string underlying in
  let params := [("expiration", expiration); ("expiration2", expiration2);
                 ("strikeProximity", strikeProximity); ("spreadType", spreadType);
                 ("riskFreeRate", riskFreeRate); ("priceCenter", priceCenter);
                 ("strikeInterval", strikeInterval); ("enableGreeks", enableGreeks);
                 ("strikeRange", strikeRange); ("optionType", optionType)] in
  axios_get url
    {| params := Some params;
       headers := [("Authorization", "Bearer " ++ to_string (token this));
                   ("Accept", "application/vnd.tradestation.streams.v2+json")];
       responseType := Some "stream" |}.

Definition streamOptionQuotes (this : t) (legs_0_Symbol legs_0_Ratio riskFreeRate enableGreeks : scalar) : Promise response :=
  let legs_0_Ratio := default legs_0_Ratio (Num 1) in
  let enableGreeks := default enableGreeks (Bool true) in
  let url := baseUrl this ++ "/stream/options/quotes" in
  let params := [("legs[0].Symbol", legs_0_Symbol); ("legs[0].Ratio", legs_0_Ratio);
                 ("riskFreeRate", riskFreeRate); ("enableGreeks", enableGreeks)] in
  axios_get url
    {| params := Some params;
       headers := [("Authorization", "Bearer " ++ to_string (token this));
                   ("Accept", "application/vnd.tradestation.streams.v2+json")];
       responseType := Some "stream" |}.

Definition getQuoteSnapshots (this : t) (symbols : scalar) : Promise response :=
  let url := baseUrl this ++ "/quotes/" ++ to_string symbols in
  axios_get url
    {| headers := [("Authorization", "Bearer " ++ to_string (token this))];
       params := None; responseType := None |}.

Definition streamQuoteChanges (this : t) (symbols : scalar) : Promise response :=
  let url := baseUrl this ++ "/stream/quotes/" ++ to_string symbols in
  axios_get url
    {| headers := [("Authorization", "Bearer " ++ to_string (token this));
                   ("Accept", "application/vnd.tradestation.streams.v2+json")];
       params := None; responseType := Some "stream" |}.

Definition streamMarketDepthQuotes (this : t) (symbol maxLevels : scalar) : Promise response :=
  let maxLevels := default maxLevels (Num 20) in
  let url := baseUrl this ++ "/stream/marketdepth/quotes/" ++ to_string symbol in
  let params := [("maxlevels", maxLevels)] in
  axios_get url
    {| params := Some params;
       headers := [("Authorization", "Bearer " ++ to_string (token this));
                   ("Accept", "application/vnd.tradestation.streams.v2+json")];
       responseType := Some "stream" |}.

Definition streamMarketDepthAggregates (this : t) (symbol maxLevels : scalar) : Promise response :=
  let maxLevels := default maxLevels (Num 20) in
  let url := baseUrl this ++ "/stream/marketdepth/aggregates/" ++ to_string symbol in
  let params := [("maxlevels", maxLevels)] in
  axios_get url
    {| params := Some params;
       headers := [("Authorization", "Bearer " ++ to_string (token this));
                   ("Accept", "application/vnd.tradestation.streams.v2+json")];
       responseType := Some "stream" |}.

(** Not built on [baseUrl]: the v2 host path is written out. *)
Definition streamTickBars (this : t) (symbol interval barsBack : scalar) : Promise value :=
  let url := "https://api.tradestation.com/v2/stream/tickbars/" ++ to_string symbol
             ++ "/" ++ to_string interval ++ "/" ++ to_string barsBack in
  catch
    (then_
       (axios_get url
          {| headers := [("Authorization", "Bearer " ++ to_string (token this))];
             params := None; responseType := None |})
       (fun response => resolve (data response)))
    (fun error =>
       _ <- console_error "Error streaming tick bars:" error ;;
       throw error).

Inductive call :=
| GetBars (symbol interval unit barsback firstdate lastdate sessiontemplate : scalar)
| StreamBars (symbol interval unit barsback sessiontemplate : scalar)
| GetCryptoSymbolNames
| GetSymbolDetails (symbols : scalar)
| GetOptionExpirations (underlying strikePrice : scalar)
| GetOptionRiskReward (riskRewardInput : value)
| GetOptionSpreadTypes
| GetOptionStrikes (underlying spreadType strikeInterval expiration expiration2 : scalar)
| StreamOptionChain (underlying expiration expiration2 strikeProximity spreadType
    riskFreeRate priceCenter strikeInterval enableGreeks strikeRange optionType : scalar)
| StreamOptionQuotes (legs_0_Symbol legs_0_Ratio riskFreeRate enableGreeks : scalar)
| GetQuoteSnapshots (symbols : scalar)
| StreamQuoteChanges (symbols : scalar)
| StreamMarketDepthQuotes (symbol maxLevels : scalar)
| StreamMarketDepthAggregates (symbol maxLevels : scalar)
| StreamTickBars (symbol interval barsBack : scalar).

Definition invoke (this : t) (c : call) : Promise value :=
  match c with
  | GetBars s i u b f l t => getBars this s i u b f l t
  | StreamBars s i u b t => whole (streamBars this s i u b t)
  | GetCryptoSymbolNames => getCryptoSymbolNames this
  | GetSymbolDetails s => getSymbolDetails this s
  | GetOptionExpirations u p => getOptionExpirations this u p
  | GetOptionRiskReward i => getOptionRiskReward this i
  | GetOptionSpreadTypes => getOptionSpreadTypes this
  | GetOptionStrikes u s i e e2 => getOptionStrikes this u s i e e2
  | StreamOptionChain u e e2 p s r c i g sr o =>
      whole (streamOptionChain this u e e2 p s r c i g sr o)
  | StreamOptionQuotes s r f g => whole (streamOptionQuotes this s r f g)
  | GetQuoteSnapshots s => whole (getQuoteSnapshots this s)
  | StreamQuoteChanges s => whole (streamQuoteChanges this s)
  | StreamMarketDepthQuotes s m => whole (streamMarketDepthQuotes this s m)
  | StreamMarketDepthAggregates s m => whole (streamMarketDepthAggregates this s m)
  | StreamTickBars s i b => streamTickBars this s i b
  end.

End MarketData.

(** ** The whole client *)

Inductive call :=
| OnAccounts (c : Accounts.call)
| OnOrders (c : Orders.call)
| OnSymbols (c : Symbols.call)
| OnMarketData (c : MarketData.call).

(** Construct the instance with [token] and call the method. *)
Definition invoke (token : scalar) (c : call) : Promise value :=
  match c with
  | OnAccounts c => Accounts.invoke (Accounts.constructor token) c
  | OnOrders c => Orders.invoke (Orders.constructor token) c
  | OnSymbols c => Symbols.invoke (Symbols.constructor token) c
  | OnMarketData c => MarketData.invoke (MarketData.constructor token) c
  end.

(** The key a method's success handler reads from [response.data], for the
    methods that unwrap a single one. *)
Definition unwrap_key (c : call) : option string :=
  match c with
  | OnAccounts Accounts.GetAccounts => Some "Accounts"
  | OnAccounts (Accounts.GetAccountBalances _) => Some "Balances"
  | OnAccounts (Accounts.GetBalancesBOD _) => Some "BODBalances"
  | OnAccounts (Accounts.GetOrders _ _ _) => Some "Orders"
  | OnAccounts (Accounts.GetOrdersByOrderID _ _) => Some "Orders"
  | OnAccounts (Accounts.GetPositions _ _) => Some "Positions"
  | OnAccounts (Accounts.GetWallets _) => Some "Wallets"
  | OnAccounts (Accounts.StreamOrdersByOrderId _ _) => Some "Orders"
  | OnOrders (Orders.ConfirmOrder _) => Some "Confirmations"
  | OnOrders (Orders.ConfirmGroupOrder _) => Some "OrderConfirmResponses"
  | OnOrders (Orders.PlaceGroupOrder _) => Some "Orders"
  | OnOrders (Orders.PlaceOrder _) => Some "Orders"
  | OnOrders Orders.GetActivationTriggers => Some "ActivationTriggers"
  | OnOrders Orders.GetRoutes => Some "Routes"
  | OnMarketData MarketData.GetCryptoSymbolNames => Some "SymbolNames"
  | OnMarketData (MarketData.GetOptionExpirations _ _) => Some "Expirations"
  | OnMarketData MarketData.GetOptionSpreadTypes => Some "SpreadTypes"
  | _ => None
  end.

(** The value of query parameter [k] in the config of the one request a
    call issues. *)
Definition param {A} (p : Promise A) (w : world) (k : string) : option scalar :=
  match issued p w with
  | [req] => match params (cfg req) with
             | Some ps => lookup k ps
             | None => None
             end
  | _ => None
  end.

Definition accept_streams : string := "application/vnd.tradestation.streams.v2+json".

(** A world whose transport brings back the same thing for every request. *)
Definition mock (o : option reply) (now : Z) : world :=
  {| transport := fun _ => o; clock := now |}.

(** ** Requests sent by a computation

    [sends w p req]: in world [w], however [p] settles, it adds exactly the
    request [req] to those sent.  [quiet w p]: [p] sends nothing.
    [yields w p a]: [p] is fulfilled with [a] and has no effect. *)

Definition sends {A} (w : world) (p : Promise A) (req : request) : Prop :=
  forall fx, sent (snd (p w fx)) = (sent fx ++ [req])%list.

Definition quiet {A} (w : world) (p : Promise A) : Prop :=
  forall fx, sent (snd (p w fx)) = sent fx.

Definition yields {A} (w : world) (p : Promise A) (a : A) : Prop :=
  forall fx, p w fx = (Fulfilled a, fx).


(** ** Streaming methods *)

(** The request config is set up for streaming: the [Accept] header of the
    streams media type and [responseType: 'stream']. *)
Definition streaming (req : request) : bool :=
  match lookup "Accept" (headers (cfg req)), responseType (cfg req) with
  | Some a, Some t => (a =? accept_streams)%string && (t =? "stream")%string
  | _, _ => false
  end.

(** The methods whose name starts with [stream]. *)
Definition is_stream_call (c : call) : bool :=
  match c with
  | OnAccounts (Accounts.StreamWallets _)
  | OnAccounts (Accounts.StreamOrders _)
  | OnAccounts (Accounts.StreamOrdersByOrderId _ _)
  | OnAccounts (Accounts.StreamPositions _ _)
  | OnMarketData (MarketData.StreamBars _ _ _ _ _)
  | OnMarketData (MarketData.StreamOptionChain _ _ _ _ _ _ _ _ _ _ _)
  | OnMarketData (MarketData.StreamOptionQuotes _ _ _ _)
  | OnMarketData (MarketData.StreamQuoteChanges _)
  | OnMarketData (MarketData.StreamMarketDepthQuotes _ _)
  | OnMarketData (MarketData.StreamMarketDepthAggregates _ _)
  | OnMarketData (MarketData.StreamTickBars _ _ _) => true
  | _ => false
  end.

(** Those among them whose request lacks the [Accept] header, the
    [responseType], or both. *)
Definition incomplete_stream_call (c : call) : bool :=
  match c with
  | OnAccounts (Accounts.StreamOrders _)
  | OnAccounts (Accounts.StreamOrdersByOrderId _ _)
  | OnAccounts (Accounts.StreamPositions _ _)
  | OnMarketData (MarketData.StreamTickBars _ _ _) => true
  | _ => false
  end.

(** The value handed to the caller is the stream, or the response object
    whose [data] is the stream. *)
Definition exposes_stream (v : value) : bool :=
  match v with
  | VStream _ => true
  | VObj fields => match lookup "data" fields with
                   | Some (VStream _) => true
                   | _ => false
                   end
  | _ => false
  end.

(** ** Worlds and requests used as concrete instances *)

(** A server that answers 200 with [body] to anything. *)
Definition ok (body : value) : world :=
  mock (Some {| code := 200; payload := body |}) 0.

Definition server_error : world :=
  mock (Some {| code := 500; payload := VStr "Internal Server Error" |}) 0.

Definition request_getAccounts : request :=
  {| method := GET;
     url := "https://api.tradestation.com/v3/brokerage/accounts";
     body := None;
     cfg := {| headers := [("Authorization", "Bearer secret")];
               params := None; responseType := None |} |}.

Definition status_500 : error :=
  AxiosError "Request failed with status code 500" (Some 500).

Definition expirations_call : call :=
  OnMarketData (MarketData.GetOptionExpirations (Str "AAPL") Undefined).

Definition request_expirations : request :=
  {| method := GET;
     url := "https://api.tradestation.com/v3/marketdata/options/expirations/AAPL";
     body := None;
     cfg := {| headers := [("Authorization", "Bearer secret")];
               params := Some []; responseType := None |} |}.

Definition positions_body : value :=
  VObj [("Positions", VArr [VObj [("Symbol", VStr "MSFT"); ("Quantity", VStr "10")]])].

Definition strikes_body : value :=
  VObj [("SpreadType", VStr "Single");
        ("Strikes", VArr [VArr [VStr "145"]; VArr [VStr "150"]])].

Definition request_streamOrders : request :=
  {| method := GET;
     url := "https://api.tradestation.com/v3/brokerage/stream/accounts/12345/orders";
     body := None;
     cfg := {| headers := [("Authorization", "Bearer secret")];
               params := None; responseType := Some "stream" |} |}.

(** ** What each method does with a response and with a failure *)

(** The three error paths of the files: [.catch] that prints the error
    under a label and throws it again; [try]/[catch] that throws a new
    [Error] made of a label and the message; no handler at all. *)
Inductive error_path :=
| Rethrow (label : string)
| Wrap (label : string)
| Direct.

Definition error_path_of (c : call) : error_path :=
  match c with
  | OnAccounts Accounts.GetAccounts => Rethrow "Error fetching accounts:"
  | OnAccounts (Accounts.GetAccountBalances _) => Rethrow "Error fetching account balances:"
  | OnAccounts (Accounts.GetBalancesBOD _) =>
      Rethrow "Error fetching Beginning of Day Balances:"
  | OnAccounts (Accounts.GetHistoricalOrders _ _ _ _) =>
      Rethrow "Error fetching historical orders:"
  | OnAccounts (Accounts.GetHistoricalOrdersByOrderID _ _ _) =>
      Rethrow "Error fetching historical orders:"
  | OnAccounts (Accounts.GetOrders _ _ _) => Rethrow "Error fetching orders:"
  | OnAccounts (Accounts.GetOrdersByOrderID _ _) => Rethrow "Error fetching orders:"
  | OnAccounts (Accounts.GetPositions _ _) => Rethrow "Error fetching positions:"
  | OnAccounts (Accounts.GetWallets _) => Rethrow "Error fetching wallets:"
  | OnAccounts (Accounts.StreamWallets _) => Rethrow "Error streaming wallets:"
  | OnAccounts (Accounts.StreamOrders _) => Rethrow "Error streaming orders:"
  | OnAccounts (Accounts.StreamOrdersByOrderId _ _) =>
      Rethrow "Error streaming orders by order ID:"
  | OnAccounts (Accounts.StreamPositions _ _) => Rethrow "Error streaming positions:"
  | OnOrders (Orders.ConfirmOrder _) => Rethrow "Error confirming order:"
  | OnOrders (Orders.ConfirmGroupOrder _) => Rethrow "Error confirming group order:"
  | OnOrders (Orders.PlaceGroupOrder _) => Rethrow "Error placing group order:"
  | OnOrders (Orders.PlaceOrder _) => Rethrow "Error placing order:"
  | OnOrders (Orders.ReplaceOrder _ _) => Rethrow "Error replacing order:"
  | OnOrders Orders.GetActivationTriggers => Rethrow "Error getting activation triggers:"
  | OnOrders Orders.GetRoutes => Rethrow "Error getting routes:"
  | OnSymbols _ => Direct
  | OnMarketData (MarketData.GetBars _ _ _ _ _ _ _) => Wrap "Error fetching bars"
  | OnMarketData MarketData.GetCryptoSymbolNames =>
      Wrap "Error fetching crypto symbol names"
  | OnMarketData (MarketData.GetSymbolDetails _) => Wrap "Error fetching symbol details"
  | OnMarketData (MarketData.GetOptionExpirations _ _) =>
      Wrap "Error fetching option expirations"
  | OnMarketData (MarketData.GetOptionRiskReward _) =>
      Wrap "Error analyzing option risk vs. reward"
  | OnMarketData MarketData.GetOptionSpreadTypes =>
      Wrap "Error fetching option spread types"
  | OnMarketData (MarketData.GetOptionStrikes _ _ _ _ _) =>
      Wrap "Error fetching option strikes"
  | OnMarketData (MarketData.StreamTickBars _ _ _) => Rethrow "Error streaming tick bars:"
  | OnMarketData _ => Direct
  end.

(** How a call settles, and what it prints, when [e] is thrown inside the
    scope of its error path. *)
Definition surfaced (path : error_path) (e : error) : settled value * list console_entry :=
  match path with
  | Rethrow label => (Rejected e, [ConsoleError label e])
  | Wrap label => (Rejected (Error (label ++ ": " ++ message e)), [])
  | Direct => (Rejected e, [])
  end.

(** The methods whose success handler returns [response.data] as it is. *)
Definition whole_data_call (c : call) : bool :=
  match c with
  | OnAccounts (Accounts.GetHistoricalOrders _ _ _ _)
  | OnAccounts (Accounts.GetHistoricalOrdersByOrderID _ _ _)
  | OnAccounts (Accounts.StreamWallets _)
  | OnAccounts (Accounts.StreamPositions _ _)
  | OnOrders (Orders.ReplaceOrder _ _)
  | OnMarketData (MarketData.GetBars _ _ _ _ _ _ _)
  | OnMarketData (MarketData.GetSymbolDetails _)
  | OnMarketData (MarketData.GetOptionRiskReward _)
  | OnMarketData (MarketData.StreamTickBars _ _ _) => true
  | _ => false
  end.

(** The methods that return the axios promise itself. *)
Definition response_call (c : call) : bool :=
  match error_path_of c with Direct => true | _ => false end.

(** The object a method sends as the request body, if it sends one. *)
Definition sent_body (c : call) : option value :=
  match c with
  | OnOrders (Orders.ConfirmOrder order) => Some order
  | OnOrders (Orders.ConfirmGroupOrder groupOrder) => Some groupOrder
  | OnOrders (Orders.PlaceGroupOrder groupOrder) => Some groupOrder
  | OnOrders (Orders.PlaceOrder order) => Some order
  | OnOrders (Orders.ReplaceOrder _ replacementOrder) => Some replacementOrder
  | OnMarketData (MarketData.GetOptionRiskReward riskRewardInput) => Some riskRewardInput
  | _ => None
  end.

Definition is_streamTickBars (c : MarketData.call) : bool :=
  match c with MarketData.StreamTickBars _ _ _ => true | _ => false end.

(** The calls that read the clock: [getBars] without [lastdate]. *)
Definition reads_clock (c : call) : bool :=
  match c with
  | OnMarketData (MarketData.GetBars _ _ _ _ _ lastdate _) => is_undefined lastdate
  | _ => false
  end.

Definition set_clock (w : world) (now : Z) : world :=
  {| transport := transport w; clock := now |}.

(** A request without its [Authorization] header. *)
Definition anonymous (req : request) : request :=
  {| method := method req;
     url := url req;
     body := body req;
     cfg := {| headers := filter (fun h => negb (fst h =? "Authorization")%string)
                                 (headers (cfg req));
               params := params (cfg req);
               responseType := responseType (cfg req) |} |}.

(** Nothing observable besides the one request. *)
Definition only_sent (req : request) : effects :=
  {| sent := [req]; console := []; listeners := [] |}.

(** ** More concrete instances *)

Definition bars_call : call :=
  OnMarketData (MarketData.GetBars (Str "MSFT") Undefined Undefined Undefined
                  Undefined (Str "2024-01-31") Undefined).

Definition request_bars : request :=
  {| method := GET;
     url := "https://api.tradestation.com/v3/marketdata/barcharts/MSFT";
     body := None;
     cfg := {| params := Some [("interval", Str "1"); ("unit", Str "Daily");
                               ("barsback", Str "1"); ("firstdate", Undefined);
                               ("lastdate", Str "2024-01-31");
                               ("sessiontemplate", Undefined)];
               headers := [("Authorization", "Bearer secret")];
               responseType := None |} |}.

Definition accounts_body : value :=
  VObj [("Accounts", VArr [VObj [("AccountID", VStr "12345")]])].

Definition request_quotes : request :=
  {| method := GET;
     url := "https://api.tradestation.com/v3/marketdata/quotes/MSFT";
     body := None;
     cfg := {| headers := [("Authorization", "Bearer secret")];
               params := None; responseType := None |} |}.

Definition request_streamQuotes : request :=
  {| method := GET;
     url := "https://api.tradestation.com/v3/marketdata/stream/quotes/MSFT";
     body := None;
     cfg := {| headers := [("Authorization", "Bearer secret");
                           ("Accept", "application/vnd.tradestation.streams.v2+json")];
               params := None; responseType := Some "stream" |} |}.

Definition null_read (k : string) : error :=
  TypeError ("Cannot read properties of null (reading '" ++ k ++ "')").

(** [timeless p]: [p] behaves the same whatever the clock shows. *)
Definition timeless {A} (p : Promise A) : Prop :=
  forall w now fx, p (set_clock w now) fx = p w fx.

Definition is_streamOrders (c : call) : bool :=
  match c with OnAccounts (Accounts.StreamOrders _) => true | _ => false end.

Definition request_strikes : request :=
  {| method := GET;
     url := "https://api.tradestation.com/v3/marketdata/options/strikes/AAPL";
     body := None;
     cfg := {| headers := [("Authorization", "Bearer secret")];
               params := Some [("spreadType", Str "Vertical"); ("strikeInterval", Num 2);
                               ("expiration", Str "2024-06-21");
                               ("expiration2", Undefined)];
               responseType := None |} |}.

Definition vertical_body : value :=
  VObj [("Strikes", VArr [VArr [VStr "145"; VStr "150"]]);
        ("SpreadType", VStr "Vertical");
        ("Message", VStr "ok")].

(** * Properties *)

(** ** Requests sent by a computation *)

Lemma sends_dispatch w (req : request) : sends w (dispatch req) req.
Proof. intros fx. reflexivity. Qed.

Lemma quiet_resolve {A} w (a : A) : quiet w (resolve a).
Proof. intros fx. reflexivity. Qed.

Lemma quiet_throw {A} w (e : error) : quiet w (@throw A e).
Proof. intros fx. reflexivity. Qed.

Lemma quiet_get w (v : value) (k : string) : quiet w (get v k).
Proof. intros fx. unfold get. destruct (member v k); reflexivity. Qed.

Lemma quiet_console_error w (label : string) (e : error) :
  quiet w (console_error label e).
Proof. intros fx. reflexivity. Qed.

Lemma quiet_then {A B} w (p : Promise A) (f : A -> Promise B) :
  quiet w p -> (forall a, quiet w (f a)) -> quiet w (then_ p f).
Proof.
  intros Hp Hf fx. unfold then_. specialize (Hp fx).
  destruct (p w fx) as [[a|e] fx']; cbn in *; [rewrite Hf|]; assumption.
Qed.

Lemma quiet_on w (v : value) (event : string) (l : listener) : quiet w (on v event l).
Proof.
  destruct v; cbn [on];
    try apply quiet_throw;
    try (apply quiet_then; [apply quiet_get | intros; apply quiet_resolve]).
  intros fx. reflexivity.
Qed.

Lemma sends_then {A B} w (p : Promise A) (f : A -> Promise B) (req : request) :
  sends w p req -> (forall a, quiet w (f a)) -> sends w (then_ p f) req.
Proof.
  intros Hp Hf fx. unfold then_. specialize (Hp fx).
  destruct (p w fx) as [[a|e] fx']; cbn in *; [rewrite Hf|]; assumption.
Qed.

Lemma sends_catch {A} w (p : Promise A) (h : error -> Promise A) (req : request) :
  sends w p req -> (forall e, quiet w (h e)) -> sends w (catch p h) req.
Proof.
  intros Hp Hh fx. unfold catch. specialize (Hp fx).
  destruct (p w fx) as [[a|e] fx']; cbn in *; [|rewrite Hh]; assumption.
Qed.

Lemma yields_resolve {A} w (a : A) : yields w (resolve a) a.
Proof. intros fx. reflexivity. Qed.

Lemma yields_new_Date w : yields w new_Date (clock w).
Proof. intros fx. reflexivity. Qed.

Lemma yields_then {A B} w (p : Promise A) (f : A -> Promise B) a b :
  yields w p a -> yields w (f a) b -> yields w (then_ p f) b.
Proof. intros Hp Hf fx. unfold then_. rewrite Hp. apply Hf. Qed.

Lemma sends_after {A B} w (p : Promise A) (f : A -> Promise B) a (req : request) :
  yields w p a -> sends w (f a) req -> sends w (then_ p f) req.
Proof. intros Hp Hf fx. unfold then_. rewrite Hp. apply Hf. Qed.

Lemma yields_if {A} w (b : bool) (p q : Promise A) (a a' : A) :
  yields w p a -> yields w q a' -> yields w (if b then p else q) (if b then a else a').
Proof. destruct b; auto. Qed.

Lemma sends_issued {A} w (p : Promise A) (req : request) :
  sends w p req -> issued p w = [req].
Proof. intros H. apply (H no_effects). Qed.

Create HintDb requests.
#[local] Hint Resolve sends_dispatch quiet_resolve quiet_throw quiet_get
  quiet_console_error quiet_then quiet_on sends_then sends_catch
  yields_resolve yields_new_Date yields_then yields_if sends_after : requests.

Ltac unfold_methods :=
  unfold invoke, Accounts.invoke, Orders.invoke, Symbols.invoke, MarketData.invoke,
    Accounts.getAccounts, Accounts.getAccountBalances, Accounts.getBalancesBOD,
    Accounts.getHistoricalOrders, Accounts.getHistoricalOrdersByOrderID,
    Accounts.getOrders, Accounts.getOrdersByOrderID, Accounts.getPositions,
    Accounts.getWallets, Accounts.streamWallets, Accounts.streamOrders,
    Accounts.streamOrdersByOrderId, Accounts.streamPositions,
    Orders.confirmOrder, Orders.confirmGroupOrder, Orders.placeGroupOrder,
    Orders.placeOrder, Orders.replaceOrder, Orders.getActivationTriggers,
    Orders.getRoutes, Symbols.suggestSymbols, Symbols.searchSymbols,
    MarketData.getBars, MarketData.streamBars, MarketData.getCryptoSymbolNames,
    MarketData.getSymbolDetails, MarketData.getOptionExpirations,
    MarketData.getOptionRiskReward, MarketData.getOptionSpreadTypes,
    MarketData.getOptionStrikes, MarketData.streamOptionChain,
    MarketData.streamOptionQuotes, MarketData.getQuoteSnapshots,
    MarketData.streamQuoteChanges, MarketData.streamMarketDepthQuotes,
    MarketData.streamMarketDepthAggregates, MarketData.streamTickBars,
    whole, axios_get, axios_post, axios_put.

(** Every method sends one request, whose [Authorization] header is
    [Bearer] followed by the token of the instance. *)
Lemma sends_one_authorized (token : scalar) (c : call) (w : world) :
  exists req,
    sends w (invoke token c) req /\
    lookup "Authorization" (headers (cfg req)) = Some ("Bearer " ++ to_string token).
Proof.
  destruct c as [c|c|c|c]; destruct c; unfold_methods.
  all: eexists; split; [ solve [eauto 12 with requests] | reflexivity ].
Qed.

Lemma issued_singleton {A} w (p : Promise A) (req r : request) :
  sends w p r -> In req (issued p w) -> req = r.
Proof.
  intros Hs Hin. rewrite (sends_issued _ _ _ Hs) in Hin.
  destruct Hin as [H|[]]. now symmetry.
Qed.

Ltac conjuncts := repeat match goal with |- _ /\ _ => split end.

Ltac unfold_promise :=
  unfold outcome, run, catch, then_, dispatch, resolve, throw, console_error,
    new_Date, no_effects.


(** ** Settling and reading *)

Lemma settle_2xx (req : request) (o : option reply) (r : reply) :
  o = Some r -> validateStatus (code r) = true ->
  settle req o = Fulfilled (respond req r).
Proof. intros -> Hv. unfold settle. now rewrite Hv. Qed.

Lemma member_missing (v : value) (k : string) :
  readable v = true -> has_key v k = false -> member v k = inr VUndefined.
Proof.
  destruct v; cbn; try discriminate; try reflexivity.
  destruct (lookup k fields); [ discriminate | reflexivity ].
Qed.

Lemma get_member (v x : value) (k : string) (w : world) (fx : effects) :
  member v k = inr x -> get v k w fx = (Fulfilled x, fx).
Proof. intros H. unfold get. now rewrite H. Qed.

(** A method that unwraps key [k] is fulfilled with [data[k]] on a 2xx
    response whose data can be read. *)
Lemma unwrap_reads_key (token : scalar) (c : call) (k : string) (w : world)
  (req : request) (r : reply) (v : value) :
  unwrap_key c = Some k ->
  In req (issued (invoke token c) w) ->
  transport w req = Some r ->
  validateStatus (code r) = true ->
  member (payload r) k = inr v ->
  outcome (invoke token c) w = Fulfilled v.
Proof.
  intros Hk.
  destruct c as [c|c|c|c]; destruct c; try discriminate Hk;
    injection Hk as <-; unfold_methods; intros Hin Ht Hv Hm.
  all: eapply issued_singleton in Hin; [ | solve [eauto 12 with requests] ].
  all: subst req; unfold_promise.
  all: rewrite (settle_2xx _ _ _ Ht Hv); cbn [respond responseType cfg data].
  all: now rewrite (get_member _ _ _ _ _ Hm).
Qed.

Ltac read_param :=
  intros; unfold param;
  erewrite sends_issued by (unfold_methods; eauto 12 with requests);
  reflexivity.

(** axios rejects exactly on a transport failure or a status outside 2xx. *)
Lemma settle_rejected (req : request) (o : option reply) (ae : error) :
  settle req o = Rejected ae <->
  (o = None /\ ae = AxiosError "Network Error" None) \/
  (exists r, o = Some r /\ validateStatus (code r) = false /\
             ae = AxiosError ("Request failed with status code "
                              ++ string_of_Z (code r)) (Some (code r))).
Proof.
  unfold settle. split.
  - destruct o as [r|].
    + destruct (validateStatus (code r)) eqn:Hv; [ discriminate | ].
      intros [= <-]. right. exists r. auto.
    + intros [= <-]. left. auto.
  - intros [[-> ->] | [r [-> [Hv ->]]]]; [ reflexivity | now rewrite Hv ].
Qed.

Lemma validateStatus_2xx (s : Z) : validateStatus s = true <-> 200 <= s < 300.
Proof. unfold validateStatus. rewrite andb_true_iff, Z.leb_le, Z.ltb_lt. tauto. Qed.

(** ** Query serialization *)

(** A parameter whose value is [null] or [undefined] is not serialized. *)
Lemma effective_not_nullish (ps : list (string * scalar)) (k : string) (v : scalar) :
  In (k, v) (effective ps) <-> In (k, v) ps /\ nullish v = false.
Proof.
  unfold effective. rewrite filter_In. cbn. now rewrite negb_true_iff.
Qed.

Lemma serialize_all_nullish (ps : list (string * scalar)) :
  (forall k v, In (k, v) ps -> nullish v = true) -> serialize ps = "".
Proof.
  intros H. unfold serialize.
  replace (effective ps) with (@nil (string * scalar)); [ reflexivity | ].
  symmetry. induction ps as [|[k v] ps IH]; [ reflexivity | ].
  cbn. rewrite (H k v) by now left. cbn. apply IH.
  intros k' v' Hin. apply (H k' v'). now right.
Qed.

(** ** The runtime model on concrete inputs *)

Example toISOString_epoch : toISOString 0 = "1970-01-01T00:00:00.000Z".
Proof. reflexivity. Qed.

Example toISOString_2023 : toISOString 1700000000123 = "2023-11-14T22:13:20.123Z".
Proof. reflexivity. Qed.

Example toISOString_leap_day : toISOString 1709164800000 = "2024-02-29T00:00:00.000Z".
Proof. reflexivity. Qed.

Example toISOString_before_epoch : toISOString (-1) = "1969-12-31T23:59:59.999Z".
Proof. reflexivity. Qed.

Example buildURL_skips_and_encodes :
  buildURL "https://host/path#top"
    (Some [("$top", Num 5); ("$filter", Undefined); ("name", Str "a b&c"); ("n", Null)])
  = "https://host/path?$top=5&name=a+b%26c".
Proof. reflexivity. Qed.

(** ** The calls on concrete inputs *)

(** [getHistoricalOrders] without [nextToken]: the parameter is not on the
    wire. *)
Example getHistoricalOrders_without_nextToken :
  map (fun req => (wire_url req, query_names (query_of (wire_url req))))
    (issued (Accounts.getHistoricalOrders (Accounts.constructor (Str "secret"))
               (Str "123") (Str "2024-01-01") Undefined Undefined) (ok (VObj [])))
  = [("https://api.tradestation.com/v3/brokerage/accounts/123/historicalorders?since=2024-01-01&pageSize=600",
      ["since"; "pageSize"])].
Proof. reflexivity. Qed.

(** [getHistoricalOrdersByOrderID] without [since]: the query is
    [since=undefined]. *)
Example getHistoricalOrdersByOrderID_without_since :
  map (fun req => let q := query_of (wire_url req) in
                  (q, query_names q, includes "undefined" q))
    (issued (Accounts.getHistoricalOrdersByOrderID (Accounts.constructor (Str "secret"))
               (Str "123") (Str "456") Undefined) (ok (VObj [])))
  = [("since=undefined", ["since"], true)].
Proof. reflexivity. Qed.

Example getBars_without_lastdate :
  map wire_url
    (issued (MarketData.getBars (MarketData.constructor (Str "secret")) (Str "MSFT")
               Undefined Undefined Undefined Undefined Undefined Undefined)
            (mock None 1700000000123))
  = ["https://api.tradestation.com/v3/marketdata/barcharts/MSFT?interval=1&unit=Daily&barsback=1&lastdate=2023-11-14T22:13:20.123Z"].
Proof. reflexivity. Qed.

(** A [null] body: the read in the handler throws, and the rejection goes
    through the method's error path. *)
Example getAccounts_null_body :
  run (Accounts.getAccounts (Accounts.constructor (Str "secret"))) (ok VNull)
  = (Rejected (TypeError "Cannot read properties of null (reading 'Accounts')"),
     {| sent := [request_getAccounts];
        console := [ConsoleError "Error fetching accounts:"
                      (TypeError "Cannot read properties of null (reading 'Accounts')")];
        listeners := [] |}).
Proof. reflexivity. Qed.

(** [getOptionStrikes] builds its result from two keys: on a body with
    neither, both fields of the result are [undefined]. *)
Example getOptionStrikes_missing_keys :
  outcome (MarketData.getOptionStrikes (MarketData.constructor (Str "secret"))
             (Str "AAPL") Undefined Undefined Undefined Undefined) (ok (VObj []))
  = Fulfilled (VObj [("SpreadType", VUndefined); ("Strikes", VUndefined)]).
Proof. reflexivity. Qed.

Example getBars_network_failure :
  outcome (MarketData.getBars (MarketData.constructor (Str "secret")) (Str "MSFT")
             Undefined Undefined Undefined Undefined Undefined Undefined)
          (mock None 0)
  = Rejected (Error "Error fetching bars: Network Error").
Proof. reflexivity. Qed.

(** ** Streaming methods *)

(** Which streaming methods set their request up for streaming. *)
Lemma stream_call_setup (token : scalar) (c : call) (w : world) :
  is_stream_call c = true ->
  exists req,
    issued (invoke token c) w = [req] /\
    streaming req = negb (incomplete_stream_call c).
Proof.
  destruct c as [c|c|c|c]; destruct c; try discriminate; intros _; unfold_methods.
  all: eexists; split;
    [ apply sends_issued; solve [eauto 12 with requests] | reflexivity ].
Qed.

(** The methods that do set it up hand the stream to the caller on a 2xx
    response. *)
Lemma stream_call_exposes_stream (token : scalar) (c : call) (w : world)
  (req : request) (r : reply) :
  is_stream_call c = true ->
  incomplete_stream_call c = false ->
  In req (issued (invoke token c) w) ->
  transport w req = Some r ->
  validateStatus (code r) = true ->
  exists v, outcome (invoke token c) w = Fulfilled v /\ exposes_stream v = true.
Proof.
  destruct c as [c|c|c|c]; destruct c; try discriminate; intros _ _;
    unfold_methods; intros Hin Ht Hv.
  all: eapply issued_singleton in Hin; [ | solve [eauto 12 with requests] ].
  all: subst req; unfold_promise.
  all: rewrite (settle_2xx _ _ _ Ht Hv).
  all: eexists; split; reflexivity.
Qed.

Lemma prefix_append (s t : string) : String.prefix s (s ++ t) = true.
Proof.
  induction s as [|a s IH]; cbn.
  - now destruct t.
  - destruct (ascii_dec a a); [ exact IH | congruence ].
Qed.

(** ** Computations that do not read the clock *)

Lemma timeless_dispatch (req : request) : timeless (dispatch req).
Proof. intros w now fx. reflexivity. Qed.

Lemma timeless_resolve {A} (a : A) : timeless (resolve a).
Proof. intros w now fx. reflexivity. Qed.

Lemma timeless_throw {A} (e : error) : timeless (@throw A e).
Proof. intros w now fx. reflexivity. Qed.

Lemma timeless_get (v : value) (k : string) : timeless (get v k).
Proof. intros w now fx. unfold get. destruct (member v k); reflexivity. Qed.

Lemma timeless_console_error (label : string) (e : error) :
  timeless (console_error label e).
Proof. intros w now fx. reflexivity. Qed.

Lemma timeless_then {A B} (p : Promise A) (f : A -> Promise B) :
  timeless p -> (forall a, timeless (f a)) -> timeless (then_ p f).
Proof.
  intros Hp Hf w now fx. unfold then_. rewrite Hp.
  destruct (p w fx) as [[a|e] fx']; [ apply Hf | reflexivity ].
Qed.

Lemma timeless_catch {A} (p : Promise A) (h : error -> Promise A) :
  timeless p -> (forall e, timeless (h e)) -> timeless (catch p h).
Proof.
  intros Hp Hh w now fx. unfold catch. rewrite Hp.
  destruct (p w fx) as [[a|e] fx']; [ reflexivity | apply Hh ].
Qed.

Lemma timeless_on (v : value) (event : string) (l : listener) : timeless (on v event l).
Proof.
  destruct v; cbn [on];
    try apply timeless_throw;
    try (apply timeless_then; [ apply timeless_get | intros; apply timeless_resolve ]).
  intros w now fx. reflexivity.
Qed.

Create HintDb clock.
#[local] Hint Resolve timeless_dispatch timeless_resolve timeless_throw timeless_get
  timeless_console_error timeless_then timeless_catch timeless_on : clock.

(** ** Claims *)

(** C9.  Every request issued by any method of any class carries the
    header [Authorization: Bearer <token>], the token being the one the
    instance was constructed with; and every method does issue a request. *)
Theorem bearer_token_on_every_request (token : scalar) (c : call) (w : world) :
  exists req,
    issued (invoke token c) w = [req] /\
    lookup "Authorization" (headers (cfg req)) = Some ("Bearer " ++ to_string token).
Proof.
  destruct (sends_one_authorized token c w) as [req [Hs Ha]].
  exists req. split; [ now apply sends_issued | exact Ha ].
Qed.

(** C8.  For every method, if the underlying HTTP call fails (the
    transport brings nothing back, or the status is not 2xx, so that axios
    rejects with [ae]), the returned promise rejects: with [ae] itself or
    with an [Error] whose message ends with the message of [ae].  The
    request was sent once (no retry), and the only console output is one
    [console.error] of [ae], if any. *)
Theorem failure_is_surfaced (token : scalar) (c : call) (w : world)
  (req : request) (ae : error) :
  In req (issued (invoke token c) w) ->
  settle req (transport w req) = Rejected ae ->
  exists e,
    outcome (invoke token c) w = Rejected e /\
    (e = ae \/ exists label, e = Error (label ++ message ae)) /\
    issued (invoke token c) w = [req] /\
    (console (snd (run (invoke token c) w)) = [] \/
     exists label, console (snd (run (invoke token c) w)) = [ConsoleError label ae]).
Proof.
  destruct c as [c|c|c|c]; destruct c; unfold_methods;
    try destruct (is_undefined lastdate); intros Hin Hfail.
  all: eapply issued_singleton in Hin; [ | solve [eauto 12 with requests] ].
  all: subst req; unfold issued; unfold_promise; rewrite Hfail.
  all: eexists; split; [ reflexivity | split; [ | split; [ reflexivity | ] ] ].
  all: solve [ left; reflexivity | right; eexists; reflexivity ].
Qed.

Lemma failure_is_surfaced_witness :
  In request_getAccounts
     (issued (invoke (Str "secret") (OnAccounts Accounts.GetAccounts)) server_error) /\
  settle request_getAccounts (transport server_error request_getAccounts)
  = Rejected status_500 /\
  exists e,
    outcome (invoke (Str "secret") (OnAccounts Accounts.GetAccounts)) server_error
    = Rejected e /\
    (e = status_500 \/ exists label, e = Error (label ++ message status_500)) /\
    issued (invoke (Str "secret") (OnAccounts Accounts.GetAccounts)) server_error
    = [request_getAccounts] /\
    (console (snd (run (invoke (Str "secret") (OnAccounts Accounts.GetAccounts))
                       server_error)) = [] \/
     exists label,
       console (snd (run (invoke (Str "secret") (OnAccounts Accounts.GetAccounts))
                         server_error)) = [ConsoleError label status_500]).
Proof.
  split; [ left; reflexivity | split; [ reflexivity | ] ].
  apply failure_is_surfaced; [ left; reflexivity | reflexivity ].
Defined.

(** C1, as stated, fails: [getAccounts] against a server answering 200
    with the body [{}], which lacks the key [Accounts], is fulfilled with
    [undefined]; the promise does not reject. *)
Lemma missing_key_is_not_rejected :
  unwrap_key (OnAccounts Accounts.GetAccounts) = Some "Accounts" /\
  has_key (VObj []) "Accounts" = false /\
  outcome (invoke (Str "secret") (OnAccounts Accounts.GetAccounts)) (ok (VObj []))
  = Fulfilled VUndefined /\
  ~ (exists e, outcome (invoke (Str "secret") (OnAccounts Accounts.GetAccounts))
                       (ok (VObj [])) = Rejected e).
Proof.
  repeat split. intros [e He]. discriminate He.
Qed.

(** C1, amended.  For every method that unwraps a key, if the transport
    returns a 2xx response whose body is a JSON value other than [null]
    that lacks the key, the returned promise is fulfilled with
    [undefined]. *)
Theorem missing_key_resolves_to_undefined (token : scalar) (c : call) (k : string)
  (w : world) (req : request) (r : reply) :
  unwrap_key c = Some k ->
  In req (issued (invoke token c) w) ->
  transport w req = Some r ->
  validateStatus (code r) = true ->
  readable (payload r) = true ->
  has_key (payload r) k = false ->
  outcome (invoke token c) w = Fulfilled VUndefined.
Proof.
  intros Hk Hin Ht Hv Hr Hmiss.
  eapply unwrap_reads_key; eauto using member_missing.
Qed.

Lemma missing_key_resolves_to_undefined_witness :
  unwrap_key expirations_call = Some "Expirations" /\
  In request_expirations (issued (invoke (Str "secret") expirations_call)
                                 (ok (VObj [("Error", VStr "none")]))) /\
  outcome (invoke (Str "secret") expirations_call) (ok (VObj [("Error", VStr "none")]))
  = Fulfilled VUndefined.
Proof.
  split; [ reflexivity | split; [ left; reflexivity | ] ].
  apply (missing_key_resolves_to_undefined (Str "secret") expirations_call
           "Expirations" (ok (VObj [("Error", VStr "none")])) request_expirations
           {| code := 200; payload := VObj [("Error", VStr "none")] |});
    solve [ reflexivity | left; reflexivity ].
Defined.

(** C2.  The code breaks the claim at [getHistoricalOrdersByOrderID]: the
    method writes [since] into the URL itself, so a call that leaves
    [since] undefined requests a URL ending in [?since=undefined]. *)
Theorem getHistoricalOrdersByOrderID_sends_undefined
  (this : Accounts.t) (accounts orderIds : scalar) (w : world) :
  exists req,
    issued (Accounts.getHistoricalOrdersByOrderID this accounts orderIds Undefined) w
    = [req] /\
    wire_url req =
      Accounts.baseUrl this ++ "/accounts/" ++ to_string accounts
      ++ "/historicalorders/" ++ to_string orderIds ++ "?since=undefined".
Proof.
  eexists. split.
  - apply sends_issued. unfold_methods. eauto 12 with requests.
  - reflexivity.
Qed.

(** C3.  The code breaks the claim at [streamOrdersByOrderId]: its request
    has no [Accept] header and no [responseType], and what the caller gets
    on a 2xx response is the [Orders] field of the parsed body. *)
Theorem streamOrdersByOrderId_is_not_streamed
  (this : Accounts.t) (accountIds ordersIds : scalar) (w : world) :
  exists req,
    issued (Accounts.streamOrdersByOrderId this accountIds ordersIds) w = [req] /\
    lookup "Accept" (headers (cfg req)) = None /\
    responseType (cfg req) = None /\
    streaming req = false /\
    forall body,
      outcome (Accounts.streamOrdersByOrderId this accountIds ordersIds) (ok body)
      = match member body "Orders" with
        | inr orders => Fulfilled orders
        | inl e => Rejected e
        end.
Proof.
  eexists. split; [ | split; [ | split; [ | split ] ] ].
  - apply sends_issued. unfold_methods. eauto 12 with requests.
  - reflexivity.
  - reflexivity.
  - reflexivity.
  - intros body. unfold_methods. unfold_promise. cbn.
    unfold get, of_result. destruct (member body "Orders"); reflexivity.
Qed.

(** C4.  A call of [getBars] issues a request whose [lastdate] parameter is
    [new Date().toISOString()] at call time when the argument is
    [undefined], and the argument itself otherwise. *)
Theorem getBars_lastdate (this : MarketData.t)
  (symbol interval unit barsback firstdate lastdate sessiontemplate : scalar)
  (w : world) :
  param (MarketData.getBars this symbol interval unit barsback firstdate lastdate
           sessiontemplate) w "lastdate"
  = Some (if is_undefined lastdate then Str (toISOString (clock w)) else lastdate).
Proof.
  unfold param.
  erewrite sends_issued by (unfold_methods; eauto 12 with requests).
  reflexivity.
Qed.

(** C5.  [getPositions("12345")] without a symbol issues one GET request to
    [<base>/accounts/12345/positions] with an empty parameter map (so the
    URL on the wire has no query), and on a 2xx response whose data can be
    read it is fulfilled with the [Positions] field of the body. *)
Theorem getPositions_scenario (this : Accounts.t) (w : world) :
  exists req,
    issued (Accounts.getPositions this (Str "12345") Undefined) w = [req] /\
    method req = GET /\
    url req = Accounts.baseUrl this ++ "/accounts/12345/positions" /\
    params (cfg req) = Some [] /\
    wire_url req = url req /\
    forall r v,
      transport w req = Some r ->
      validateStatus (code r) = true ->
      member (payload r) "Positions" = inr v ->
      outcome (Accounts.getPositions this (Str "12345") Undefined) w = Fulfilled v.
Proof.
  eexists. split.
  { apply sends_issued. unfold_methods. eauto 12 with requests. }
  conjuncts; try reflexivity.
  intros r v Ht Hv Hm. unfold_methods. unfold_promise.
  cbn [truthy] in *.
  rewrite (settle_2xx _ _ _ Ht Hv); cbn [respond responseType cfg data].
  now rewrite (get_member _ _ _ _ _ Hm).
Qed.

Lemma getPositions_scenario_witness :
  exists req,
    issued (Accounts.getPositions (Accounts.constructor (Str "secret")) (Str "12345")
              Undefined) (ok positions_body) = [req] /\
    wire_url req = "https://api.tradestation.com/v3/brokerage/accounts/12345/positions" /\
    outcome (Accounts.getPositions (Accounts.constructor (Str "secret")) (Str "12345")
               Undefined) (ok positions_body)
    = Fulfilled (VArr [VObj [("Symbol", VStr "MSFT"); ("Quantity", VStr "10")]]).
Proof.
  destruct (getPositions_scenario (Accounts.constructor (Str "secret"))
              (ok positions_body)) as [req [Hi [_ [Hu [_ [Hw H]]]]]].
  exists req. split; [ exact Hi | split ].
  - rewrite Hw, Hu. reflexivity.
  - apply (H {| code := 200; payload := positions_body |}); reflexivity.
Defined.

(** C6.  [getOptionStrikes("AAPL")] with nothing else given issues one GET
    request to [<base>/options/strikes/AAPL] whose effective query
    parameters are exactly [spreadType=Single] and [strikeInterval=1], and
    on a 2xx response whose data can be read it is fulfilled with the
    object [{SpreadType: body.SpreadType, Strikes: body.Strikes}]. *)
Theorem getOptionStrikes_scenario (this : MarketData.t) (w : world) :
  exists req ps,
    issued (MarketData.getOptionStrikes this (Str "AAPL") Undefined Undefined
              Undefined Undefined) w = [req] /\
    method req = GET /\
    url req = MarketData.baseUrl this ++ "/options/strikes/AAPL" /\
    params (cfg req) = Some ps /\
    effective ps = [("spreadType", Str "Single"); ("strikeInterval", Num 1)] /\
    serialize ps = "spreadType=Single&strikeInterval=1" /\
    forall r spreadType strikes,
      transport w req = Some r ->
      validateStatus (code r) = true ->
      member (payload r) "SpreadType" = inr spreadType ->
      member (payload r) "Strikes" = inr strikes ->
      outcome (MarketData.getOptionStrikes this (Str "AAPL") Undefined Undefined
                 Undefined Undefined) w
      = Fulfilled (VObj [("SpreadType", spreadType); ("Strikes", strikes)]).
Proof.
  eexists. eexists. split.
  { apply sends_issued. unfold_methods. eauto 12 with requests. }
  conjuncts; try reflexivity.
  intros r st sk Ht Hv Hst Hsk. unfold_methods. unfold_promise.
  cbn [default is_undefined] in *.
  rewrite (settle_2xx _ _ _ Ht Hv); cbn [respond responseType cfg data].
  rewrite (get_member _ _ _ _ _ Hst).
  now rewrite (get_member _ _ _ _ _ Hsk).
Qed.

Lemma getOptionStrikes_scenario_witness :
  exists req,
    issued (MarketData.getOptionStrikes (MarketData.constructor (Str "secret"))
              (Str "AAPL") Undefined Undefined Undefined Undefined) (ok strikes_body)
    = [req] /\
    wire_url req = "https://api.tradestation.com/v3/marketdata/options/strikes/AAPL?spreadType=Single&strikeInterval=1" /\
    outcome (MarketData.getOptionStrikes (MarketData.constructor (Str "secret"))
               (Str "AAPL") Undefined Undefined Undefined Undefined) (ok strikes_body)
    = Fulfilled strikes_body.
Proof.
  destruct (getOptionStrikes_scenario (MarketData.constructor (Str "secret"))
              (ok strikes_body)) as [req [ps [Hi [_ [Hu [Hp [_ [Hs H]]]]]]]].
  exists req. split; [ exact Hi | split ].
  - unfold wire_url. rewrite Hu, Hp. unfold buildURL. rewrite Hs. reflexivity.
  - apply (H {| code := 200; payload := strikes_body |}); reflexivity.
Defined.

(** C7.  A call that omits a defaulted parameter sends the default: bar
    interval ["1"] and unit ["Daily"], [pageSize] 600, [maxlevels] 20,
    [strikeInterval] 1, [enableGreeks] true, [strikeRange] and
    [optionType] ["All"], [spreadType] ["Single"]. *)
Theorem defaults_when_omitted (w : world) :
  (forall this symbol unit barsback firstdate lastdate sessiontemplate,
     param (MarketData.getBars this symbol Undefined unit barsback firstdate lastdate
              sessiontemplate) w "interval" = Some (Str "1")) /\
  (forall this symbol interval barsback firstdate lastdate sessiontemplate,
     param (MarketData.getBars this symbol interval Undefined barsback firstdate
              lastdate sessiontemplate) w "unit" = Some (Str "Daily")) /\
  (forall this symbol unit barsback sessiontemplate,
     param (MarketData.streamBars this symbol Undefined unit barsback sessiontemplate)
       w "interval" = Some (Str "1")) /\
  (forall this symbol interval barsback sessiontemplate,
     param (MarketData.streamBars this symbol interval Undefined barsback
              sessiontemplate) w "unit" = Some (Str "Daily")) /\
  (forall this accounts since nextToken,
     param (Accounts.getHistoricalOrders this accounts since Undefined nextToken)
       w "pageSize" = Some (Num 600)) /\
  (forall this accounts nextToken,
     param (Accounts.getOrders this accounts Undefined nextToken) w "pageSize"
     = Some (Num 600)) /\
  (forall this symbol,
     param (MarketData.streamMarketDepthQuotes this symbol Undefined) w "maxlevels"
     = Some (Num 20)) /\
  (forall this symbol,
     param (MarketData.streamMarketDepthAggregates this symbol Undefined) w "maxlevels"
     = Some (Num 20)) /\
  (forall this underlying spreadType expiration expiration2,
     param (MarketData.getOptionStrikes this underlying spreadType Undefined
              expiration expiration2) w "strikeInterval" = Some (Num 1)) /\
  (forall this underlying strikeInterval expiration expiration2,
     param (MarketData.getOptionStrikes this underlying Undefined strikeInterval
              expiration expiration2) w "spreadType" = Some (Str "Single")) /\
  (forall this underlying expiration expiration2 strikeProximity spreadType
          riskFreeRate priceCenter enableGreeks strikeRange optionType,
     param (MarketData.streamOptionChain this underlying expiration expiration2
              strikeProximity spreadType riskFreeRate priceCenter Undefined
              enableGreeks strikeRange optionType) w "strikeInterval"
     = Some (Num 1)) /\
  (forall this underlying expiration expiration2 strikeProximity spreadType
          riskFreeRate priceCenter strikeInterval strikeRange optionType,
     param (MarketData.streamOptionChain this underlying expiration expiration2
              strikeProximity spreadType riskFreeRate priceCenter strikeInterval
              Undefined strikeRange optionType) w "enableGreeks"
     = Some (Bool true)) /\
  (forall this underlying expiration expiration2 strikeProximity spreadType
          riskFreeRate priceCenter strikeInterval enableGreeks optionType,
     param (MarketData.streamOptionChain this underlying expiration expiration2
              strikeProximity spreadType riskFreeRate priceCenter strikeInterval
              enableGreeks Undefined optionType) w "strikeRange"
     = Some (Str "All")) /\
  (forall this underlying expiration expiration2 strikeProximity spreadType
          riskFreeRate priceCenter strikeInterval enableGreeks strikeRange,
     param (MarketData.streamOptionChain this underlying expiration expiration2
              strikeProximity spreadType riskFreeRate priceCenter strikeInterval
              enableGreeks strikeRange Undefined) w "optionType"
     = Some (Str "All")) /\
  (forall this underlying expiration expiration2 strikeProximity
          riskFreeRate priceCenter strikeInterval enableGreeks strikeRange optionType,
     param (MarketData.streamOptionChain this underlying expiration expiration2
              strikeProximity Undefined riskFreeRate priceCenter strikeInterval
              enableGreeks strikeRange optionType) w "spreadType"
     = Some (Str "Single")) /\
  (forall this legs_0_Symbol legs_0_Ratio riskFreeRate,
     param (MarketData.streamOptionQuotes this legs_0_Symbol legs_0_Ratio riskFreeRate
              Undefined) w "enableGreeks" = Some (Bool true)).
Proof.
  conjuncts; read_param.
Qed.

(** C10.  When the request succeeds, [streamOrders] is fulfilled with
    [undefined]: its handler attaches the logging listener for [data]
    events to the response stream and returns nothing.  One request went
    out and nothing was printed. *)
Theorem streamOrders_resolves_to_undefined (this : Accounts.t) (accountIds : scalar)
  (w : world) (req : request) (r : reply) :
  In req (issued (Accounts.streamOrders this accountIds) w) ->
  transport w req = Some r ->
  validateStatus (code r) = true ->
  run (Accounts.streamOrders this accountIds) w
  = (Fulfilled VUndefined,
     {| sent := [req]; console := [];
        listeners := [(VStream (payload r), "data", LogChunk)] |}).
Proof.
  unfold_methods. intros Hin Ht Hv.
  eapply issued_singleton in Hin; [ | solve [eauto 12 with requests] ].
  subst req. unfold_promise.
  rewrite (settle_2xx _ _ _ Ht Hv). reflexivity.
Qed.

Lemma streamOrders_resolves_to_undefined_witness :
  In request_streamOrders
     (issued (Accounts.streamOrders (Accounts.constructor (Str "secret")) (Str "12345"))
             (ok (VStr "{}"))) /\
  run (Accounts.streamOrders (Accounts.constructor (Str "secret")) (Str "12345"))
      (ok (VStr "{}"))
  = (Fulfilled VUndefined,
     {| sent := [request_streamOrders]; console := [];
        listeners := [(VStream (VStr "{}"), "data", LogChunk)] |}).
Proof.
  split; [ left; reflexivity | ].
  apply (streamOrders_resolves_to_undefined (Accounts.constructor (Str "secret"))
           (Str "12345") (ok (VStr "{}")) request_streamOrders
           {| code := 200; payload := VStr "{}" |});
    solve [ reflexivity | left; reflexivity ].
Defined.

(** ** Further properties of the wrappers *)

(** *** Error paths *)

(** X1.  When the HTTP call of a method fails with [ae], the call settles
    as its error path says: the [.catch] methods of [Accounts], [Orders]
    and [streamTickBars] print [ae] once under their label and reject with
    [ae] itself; the async [MarketData] methods reject with a new [Error]
    whose message is the label, a colon and the message of [ae], and print
    nothing; the methods that return the axios promise reject with [ae]
    and print nothing.  One request was sent and no listener attached. *)
Theorem failure_follows_error_path (token : scalar) (c : call) (w : world)
  (req : request) (ae : error) :
  In req (issued (invoke token c) w) ->
  settle req (transport w req) = Rejected ae ->
  run (invoke token c) w
  = (fst (surfaced (error_path_of c) ae),
     {| sent := [req]; console := snd (surfaced (error_path_of c) ae);
        listeners := [] |}).
Proof.
  destruct c as [c|c|c|c]; destruct c; unfold_methods;
    try destruct (is_undefined lastdate); intros Hin Hfail.
  all: eapply issued_singleton in Hin; [ | solve [eauto 12 with requests] ].
  all: subst req; unfold_promise; rewrite Hfail; reflexivity.
Qed.

Lemma failure_follows_error_path_witness :
  In request_bars (issued (invoke (Str "secret") bars_call) server_error) /\
  settle request_bars (transport server_error request_bars) = Rejected status_500 /\
  run (invoke (Str "secret") bars_call) server_error
  = (Rejected (Error "Error fetching bars: Request failed with status code 500"),
     only_sent request_bars).
Proof.
  split; [ left; reflexivity | split; [ reflexivity | ] ].
  apply (failure_follows_error_path (Str "secret") bars_call server_error
           request_bars status_500); [ left; reflexivity | reflexivity ].
Defined.

(** X2.  An error thrown by the success handler takes the same path as a
    failed request: when a method that unwraps key [k] gets a 2xx response
    on whose data the read of [k] throws [te] (the body is [null]), the
    [.catch] methods print [te] under their request label and reject with
    it, and the async methods reject with their label and its message. *)
Theorem unreadable_body_follows_error_path (token : scalar) (c : call) (k : string)
  (w : world) (req : request) (r : reply) (te : error) :
  unwrap_key c = Some k ->
  In req (issued (invoke token c) w) ->
  transport w req = Some r ->
  validateStatus (code r) = true ->
  member (payload r) k = inl te ->
  run (invoke token c) w
  = (fst (surfaced (error_path_of c) te),
     {| sent := [req]; console := snd (surfaced (error_path_of c) te);
        listeners := [] |}).
Proof.
  intros Hk.
  destruct c as [c|c|c|c]; destruct c; try discriminate Hk;
    injection Hk as <-; unfold_methods; intros Hin Ht Hv Hm.
  all: eapply issued_singleton in Hin; [ | solve [eauto 12 with requests] ].
  all: subst req; unfold_promise.
  all: rewrite (settle_2xx _ _ _ Ht Hv); cbn [respond responseType cfg data].
  all: unfold get, of_result; rewrite Hm; reflexivity.
Qed.

Lemma unreadable_body_follows_error_path_witness :
  In request_getAccounts
     (issued (invoke (Str "secret") (OnAccounts Accounts.GetAccounts)) (ok VNull)) /\
  member VNull "Accounts" = inl (null_read "Accounts") /\
  run (invoke (Str "secret") (OnAccounts Accounts.GetAccounts)) (ok VNull)
  = (Rejected (null_read "Accounts"),
     {| sent := [request_getAccounts];
        console := [ConsoleError "Error fetching accounts:" (null_read "Accounts")];
        listeners := [] |}).
Proof.
  split; [ left; reflexivity | split; [ reflexivity | ] ].
  apply (unreadable_body_follows_error_path (Str "secret")
           (OnAccounts Accounts.GetAccounts) "Accounts" (ok VNull) request_getAccounts
           {| code := 200; payload := VNull |} (null_read "Accounts"));
    solve [ reflexivity | left; reflexivity ].
Defined.

(** *** What a successful call hands back *)

(** X3.  A method that unwraps key [k] is fulfilled, on a 2xx response on
    whose data [k] can be read, with the value of [k]; it sent one request
    and printed nothing. *)
Theorem unwrap_returns_field (token : scalar) (c : call) (k : string) (w : world)
  (req : request) (r : reply) (v : value) :
  unwrap_key c = Some k ->
  In req (issued (invoke token c) w) ->
  transport w req = Some r ->
  validateStatus (code r) = true ->
  member (payload r) k = inr v ->
  run (invoke token c) w = (Fulfilled v, only_sent req).
Proof.
  intros Hk.
  destruct c as [c|c|c|c]; destruct c; try discriminate Hk;
    injection Hk as <-; unfold_methods; intros Hin Ht Hv Hm.
  all: eapply issued_singleton in Hin; [ | solve [eauto 12 with requests] ].
  all: subst req; unfold_promise.
  all: rewrite (settle_2xx _ _ _ Ht Hv); cbn [respond responseType cfg data].
  all: now rewrite (get_member _ _ _ _ _ Hm).
Qed.

Lemma unwrap_returns_field_witness :
  In request_getAccounts
     (issued (invoke (Str "secret") (OnAccounts Accounts.GetAccounts))
             (ok accounts_body)) /\
  run (invoke (Str "secret") (OnAccounts Accounts.GetAccounts)) (ok accounts_body)
  = (Fulfilled (VArr [VObj [("AccountID", VStr "12345")]]),
     only_sent request_getAccounts).
Proof.
  split; [ left; reflexivity | ].
  apply (unwrap_returns_field (Str "secret") (OnAccounts Accounts.GetAccounts)
           "Accounts" (ok accounts_body) request_getAccounts
           {| code := 200; payload := accounts_body |});
    solve [ reflexivity | left; reflexivity ].
Defined.

(** X4.  The methods whose handler returns [response.data] are fulfilled
    with the data of any 2xx response as it is, [null] included: nothing
    is read from it, so nothing can throw. *)
Theorem whole_data_is_returned (token : scalar) (c : call) (w : world)
  (req : request) (r : reply) :
  whole_data_call c = true ->
  In req (issued (invoke token c) w) ->
  transport w req = Some r ->
  validateStatus (code r) = true ->
  run (invoke token c) w = (Fulfilled (data (respond req r)), only_sent req).
Proof.
  destruct c as [c|c|c|c]; destruct c; try discriminate; intros _; unfold_methods;
    try destruct (is_undefined lastdate); intros Hin Ht Hv.
  all: eapply issued_singleton in Hin; [ | solve [eauto 12 with requests] ].
  all: subst req; unfold_promise.
  all: rewrite (settle_2xx _ _ _ Ht Hv); reflexivity.
Qed.

Lemma whole_data_is_returned_witness :
  In request_bars (issued (invoke (Str "secret") bars_call) (ok VNull)) /\
  run (invoke (Str "secret") bars_call) (ok VNull)
  = (Fulfilled VNull, only_sent request_bars).
Proof.
  split; [ left; reflexivity | ].
  apply (whole_data_is_returned (Str "secret") bars_call (ok VNull) request_bars
           {| code := 200; payload := VNull |});
    solve [ reflexivity | left; reflexivity ].
Defined.

(** X5.  The methods that return the axios promise itself ([Symbols], the
    quote snapshot and the [MarketData] streams other than
    [streamTickBars]) are fulfilled with the response object: the body or
    the stream is under its [data] property and the status under
    [status]. *)
Theorem response_object_is_returned (token : scalar) (c : call) (w : world)
  (req : request) (r : reply) :
  response_call c = true ->
  In req (issued (invoke token c) w) ->
  transport w req = Some r ->
  validateStatus (code r) = true ->
  exists v,
    run (invoke token c) w = (Fulfilled v, only_sent req) /\
    member v "data" = inr (data (respond req r)) /\
    member v "status" = inr (VNum (code r)).
Proof.
  destruct c as [c|c|c|c]; destruct c; try discriminate; intros _; unfold_methods;
    intros Hin Ht Hv.
  all: eapply issued_singleton in Hin; [ | solve [eauto 12 with requests] ].
  all: subst req; unfold_promise.
  all: rewrite (settle_2xx _ _ _ Ht Hv).
  all: eexists; split; [ reflexivity | split; reflexivity ].
Qed.

Lemma response_object_is_returned_witness :
  In request_quotes
     (issued (invoke (Str "secret") (OnMarketData (MarketData.GetQuoteSnapshots (Str "MSFT"))))
             (ok (VObj [("Quotes", VArr [])]))) /\
  exists v,
    run (invoke (Str "secret") (OnMarketData (MarketData.GetQuoteSnapshots (Str "MSFT"))))
        (ok (VObj [("Quotes", VArr [])]))
    = (Fulfilled v, only_sent request_quotes) /\
    member v "data" = inr (VObj [("Quotes", VArr [])]) /\
    member v "status" = inr (VNum 200).
Proof.
  split; [ left; reflexivity | ].
  apply (response_object_is_returned (Str "secret")
           (OnMarketData (MarketData.GetQuoteSnapshots (Str "MSFT")))
           (ok (VObj [("Quotes", VArr [])])) request_quotes
           {| code := 200; payload := VObj [("Quotes", VArr [])] |});
    solve [ reflexivity | left; reflexivity ].
Defined.

(** X6.  [getOptionStrikes], whatever its arguments, is fulfilled on a 2xx
    response with an object of exactly two properties, [SpreadType] and
    [Strikes], read from the body; any other property of the body is
    dropped. *)
Theorem getOptionStrikes_returns_two_fields (this : MarketData.t)
  (underlying spreadType strikeInterval expiration expiration2 : scalar)
  (w : world) (req : request) (r : reply) (st sk : value) :
  In req (issued (MarketData.getOptionStrikes this underlying spreadType
                    strikeInterval expiration expiration2) w) ->
  transport w req = Some r ->
  validateStatus (code r) = true ->
  member (payload r) "SpreadType" = inr st ->
  member (payload r) "Strikes" = inr sk ->
  run (MarketData.getOptionStrikes this underlying spreadType strikeInterval
         expiration expiration2) w
  = (Fulfilled (VObj [("SpreadType", st); ("Strikes", sk)]), only_sent req).
Proof.
  unfold_methods. intros Hin Ht Hv Hst Hsk.
  eapply issued_singleton in Hin; [ | solve [eauto 12 with requests] ].
  subst req. unfold_promise.
  rewrite (settle_2xx _ _ _ Ht Hv); cbn [respond responseType cfg data].
  rewrite (get_member _ _ _ _ _ Hst).
  now rewrite (get_member _ _ _ _ _ Hsk).
Qed.

Lemma getOptionStrikes_returns_two_fields_witness :
  In request_strikes
     (issued (MarketData.getOptionStrikes (MarketData.constructor (Str "secret"))
                (Str "AAPL") (Str "Vertical") (Num 2) (Str "2024-06-21") Undefined)
             (ok vertical_body)) /\
  run (MarketData.getOptionStrikes (MarketData.constructor (Str "secret"))
         (Str "AAPL") (Str "Vertical") (Num 2) (Str "2024-06-21") Undefined)
      (ok vertical_body)
  = (Fulfilled (VObj [("SpreadType", VStr "Vertical");
                      ("Strikes", VArr [VArr [VStr "145"; VStr "150"]])]),
     only_sent request_strikes).
Proof.
  split; [ left; reflexivity | ].
  apply (getOptionStrikes_returns_two_fields (MarketData.constructor (Str "secret"))
           (Str "AAPL") (Str "Vertical") (Num 2) (Str "2024-06-21") Undefined
           (ok vertical_body) request_strikes
           {| code := 200; payload := vertical_body |});
    solve [ reflexivity | left; reflexivity ].
Defined.



(** *** The shape of the requests *)

(** X8.  The request body is the object the caller passed, untouched, for
    the five [Orders] write methods and [getOptionRiskReward], and absent
    for every other method; the verb is GET exactly when there is no body
    ([replaceOrder] is the one PUT); and [Content-Type: application/json]
    is sent exactly when there is a body. *)
Theorem body_and_content_type (token : scalar) (c : call) (w : world) :
  exists req,
    issued (invoke token c) w = [req] /\
    body req = sent_body c /\
    method req = match c, sent_body c with
                 | OnOrders (Orders.ReplaceOrder _ _), _ => PUT
                 | _, Some _ => POST
                 | _, None => GET
                 end /\
    lookup "Content-Type" (headers (cfg req))
    = match sent_body c with Some _ => Some "application/json" | None => None end.
Proof.
  destruct c as [c|c|c|c]; destruct c; unfold_methods.
  all: eexists; split;
    [ apply sends_issued; solve [eauto 12 with requests] | conjuncts; reflexivity ].
Qed.

(** X9.  The token appears nowhere but in the [Authorization] header: two
    instances that differ only in their token send requests that are the
    same once that header is taken off (same verb, URL, parameters, body
    and other headers). *)
Theorem token_only_in_authorization (t1 t2 : scalar) (c : call) (w : world) :
  map anonymous (issued (invoke t1 c) w) = map anonymous (issued (invoke t2 c) w) /\
  length (issued (invoke t1 c) w) = 1%nat.
Proof.
  destruct c as [c|c|c|c]; destruct c; unfold_methods.
  all: erewrite !sends_issued by solve [eauto 12 with requests].
  all: split; reflexivity.
Qed.

(** X10.  Every method of [Accounts], [Orders] and [Symbols], and every
    method of [MarketData] but [streamTickBars], requests a URL that
    starts with the [baseUrl] of the instance. *)
Theorem url_starts_with_baseUrl (w : world) :
  (forall this c, exists req,
     issued (Accounts.invoke this c) w = [req] /\
     String.prefix (Accounts.baseUrl this) (url req) = true) /\
  (forall this c, exists req,
     issued (Orders.invoke this c) w = [req] /\
     String.prefix (Orders.baseUrl this) (url req) = true) /\
  (forall this c, exists req,
     issued (Symbols.invoke this c) w = [req] /\
     String.prefix (Symbols.baseUrl this) (url req) = true) /\
  (forall this c,
     is_streamTickBars c = false ->
     exists req,
       issued (MarketData.invoke this c) w = [req] /\
       String.prefix (MarketData.baseUrl this) (url req) = true).
Proof.
  conjuncts; intros this c; destruct c; try discriminate; intros;
    unfold_methods.
  all: eexists; split;
    [ apply sends_issued; solve [eauto 12 with requests] | ].
  all: cbn [url]; apply prefix_append.
Qed.

Lemma url_starts_with_baseUrl_witness :
  exists req,
    issued (MarketData.invoke (MarketData.constructor (Str "secret"))
              (MarketData.GetQuoteSnapshots (Str "MSFT"))) (ok VNull) = [req] /\
    String.prefix "https://api.tradestation.com/v3/marketdata" (url req) = true.
Proof.
  apply (proj2 (proj2 (proj2 (url_starts_with_baseUrl (ok VNull))))
           (MarketData.constructor (Str "secret"))
           (MarketData.GetQuoteSnapshots (Str "MSFT"))).
  reflexivity.
Defined.

(** X11.  [streamTickBars] does not use [baseUrl]: its URL is written out
    in full on the v2 host path, so two instances with the same token and
    different base URLs behave alike. *)
Theorem streamTickBars_ignores_baseUrl (this this' : MarketData.t)
  (symbol interval barsBack : scalar) (w : world) :
  MarketData.token this = MarketData.token this' ->
  run (MarketData.streamTickBars this symbol interval barsBack) w
  = run (MarketData.streamTickBars this' symbol interval barsBack) w /\
  map url (issued (MarketData.streamTickBars this symbol interval barsBack) w)
  = ["https://api.tradestation.com/v2/stream/tickbars/" ++ to_string symbol ++ "/"
     ++ to_string interval ++ "/" ++ to_string barsBack].
Proof.
  intros Htok. unfold MarketData.streamTickBars. rewrite Htok.
  split; [ reflexivity | ].
  erewrite sends_issued by (unfold axios_get; eauto 12 with requests).
  reflexivity.
Qed.

Lemma streamTickBars_ignores_baseUrl_witness :
  run (MarketData.streamTickBars (MarketData.constructor (Str "secret"))
         (Str "MSFT") (Num 5) (Num 10)) (ok VNull)
  = run (MarketData.streamTickBars
           {| MarketData.baseUrl := "https://sim-api.tradestation.com/v3/marketdata";
              MarketData.token := Str "secret" |}
           (Str "MSFT") (Num 5) (Num 10)) (ok VNull) /\
  map url (issued (MarketData.streamTickBars (MarketData.constructor (Str "secret"))
                     (Str "MSFT") (Num 5) (Num 10)) (ok VNull))
  = ["https://api.tradestation.com/v2/stream/tickbars/MSFT/5/10"].
Proof.
  apply (streamTickBars_ignores_baseUrl (MarketData.constructor (Str "secret"))
           {| MarketData.baseUrl := "https://sim-api.tradestation.com/v3/marketdata";
              MarketData.token := Str "secret" |}).
  reflexivity.
Defined.

(** X12.  Only [getBars] without [lastdate] reads the clock: every other
    call sends the same request and settles the same way whatever the
    time. *)
Theorem clock_is_read_by_getBars_only (token : scalar) (c : call) (w : world) (now : Z) :
  reads_clock c = false ->
  run (invoke token c) (set_clock w now) = run (invoke token c) w.
Proof.
  intros H. unfold run.
  enough (Ht : timeless (invoke token c)) by apply Ht.
  destruct c as [c|c|c|c]; destruct c; cbn [reads_clock] in H;
    unfold_methods; try rewrite H; eauto 12 with clock.
Qed.

Lemma clock_is_read_by_getBars_only_witness :
  run (invoke (Str "secret") bars_call) (set_clock (ok VNull) 1700000000123)
  = run (invoke (Str "secret") bars_call) (ok VNull).
Proof.
  apply (clock_is_read_by_getBars_only (Str "secret") bars_call (ok VNull)).
  reflexivity.
Defined.

(** *** Optional parameters on the wire *)

(** X13.  [getPositions] and [getOptionExpirations] test their filter for
    truthiness: a falsy [symbol] or [strikePrice] (not only [undefined] and
    [null], also the empty string, [0] and [false]) is not sent, and the
    URL requested has no query. *)
Theorem falsy_filter_is_not_sent (w : world) :
  (forall this accounts symbol,
     truthy symbol = false ->
     exists req,
       issued (Accounts.getPositions this accounts symbol) w = [req] /\
       params (cfg req) = Some [] /\
       wire_url req
       = Accounts.baseUrl this ++ "/accounts/" ++ to_string accounts ++ "/positions") /\
  (forall this underlying strikePrice,
     truthy strikePrice = false ->
     exists req,
       issued (MarketData.getOptionExpirations this underlying strikePrice) w = [req] /\
       params (cfg req) = Some [] /\
       wire_url req
       = MarketData.baseUrl this ++ "/options/expirations/" ++ to_string underlying).
Proof.
  split; intros this a f Hf; unfold_methods.
  - rewrite Hf. eexists. split;
      [ apply sends_issued; solve [eauto 12 with requests] | split; reflexivity ].
  - replace (truthy (default f Null)) with false
      by (destruct f; cbn in *; congruence).
    eexists. split;
      [ apply sends_issued; solve [eauto 12 with requests] | split; reflexivity ].
Qed.

Lemma falsy_filter_is_not_sent_witness :
  exists req,
    issued (MarketData.getOptionExpirations (MarketData.constructor (Str "secret"))
              (Str "AAPL") (Num 0)) (ok VNull) = [req] /\
    params (cfg req) = Some [] /\
    wire_url req = "https://api.tradestation.com/v3/marketdata/options/expirations/AAPL".
Proof.
  apply (proj2 (falsy_filter_is_not_sent (ok VNull))
           (MarketData.constructor (Str "secret")) (Str "AAPL") (Num 0)).
  reflexivity.
Defined.

(** X14.  Parameters passed through [params] that end up [undefined] or
    [null] leave the URL as it is: [suggestSymbols] without [top] and
    [filter] requests [<base>/suggest/<text>], and [getOrders] with
    [pageSize] given as [null] (which the default does not replace) and no
    [nextToken] requests [<base>/accounts/<accounts>/orders]. *)
Theorem nullish_params_leave_url (w : world) :
  (forall this text top filter,
     nullish top = true -> nullish filter = true ->
     exists req,
       issued (Symbols.suggestSymbols this text top filter) w = [req] /\
       wire_url req = Symbols.baseUrl this ++ "/suggest/" ++ to_string text) /\
  (forall this accounts nextToken,
     nullish nextToken = true ->
     exists req,
       issued (Accounts.getOrders this accounts Null nextToken) w = [req] /\
       wire_url req
       = Accounts.baseUrl this ++ "/accounts/" ++ to_string accounts ++ "/orders").
Proof.
  split.
  - intros this text top filter Ht Hf. unfold_methods. eexists. split;
      [ apply sends_issued; solve [eauto 12 with requests] | ].
    destruct top; try discriminate; destruct filter; try discriminate; reflexivity.
  - intros this accounts nextToken Hn. unfold_methods. eexists. split;
      [ apply sends_issued; solve [eauto 12 with requests] | ].
    destruct nextToken; try discriminate; reflexivity.
Qed.

Lemma nullish_params_leave_url_witness :
  exists req,
    issued (Symbols.suggestSymbols (Symbols.constructor (Str "secret")) (Str "MSF")
              Undefined Null) (ok VNull) = [req] /\
    wire_url req = "https://api.tradestation.com/v2/data/symbols/suggest/MSF".
Proof.
  apply (proj1 (nullish_params_leave_url (ok VNull))
           (Symbols.constructor (Str "secret")) (Str "MSF") Undefined Null);
    reflexivity.
Defined.

(** X15.  The defaults the source gives beside those of C7: [barsback]
    ["1"] ([getBars], [streamBars]), [strikeProximity] 5
    ([streamOptionChain]), [legs[0].Ratio] 1 ([streamOptionQuotes]),
    [changes] false ([streamPositions]), and [nextToken] [null]
    ([getHistoricalOrders]). *)
Theorem further_defaults_when_omitted (w : world) :
  (forall this symbol interval unit firstdate lastdate sessiontemplate,
     param (MarketData.getBars this symbol interval unit Undefined firstdate lastdate
              sessiontemplate) w "barsback" = Some (Str "1")) /\
  (forall this symbol interval unit sessiontemplate,
     param (MarketData.streamBars this symbol interval unit Undefined sessiontemplate)
       w "barsback" = Some (Str "1")) /\
  (forall this underlying expiration expiration2 spreadType riskFreeRate priceCenter
          strikeInterval enableGreeks strikeRange optionType,
     param (MarketData.streamOptionChain this underlying expiration expiration2
              Undefined spreadType riskFreeRate priceCenter strikeInterval
              enableGreeks strikeRange optionType) w "strikeProximity"
     = Some (Num 5)) /\
  (forall this legs_0_Symbol riskFreeRate enableGreeks,
     param (MarketData.streamOptionQuotes this legs_0_Symbol Undefined riskFreeRate
              enableGreeks) w "legs[0].Ratio" = Some (Num 1)) /\
  (forall this accountIds,
     param (Accounts.streamPositions this accountIds Undefined) w "changes"
     = Some (Bool false)) /\
  (forall this accounts since pageSize,
     param (Accounts.getHistoricalOrders this accounts since pageSize Undefined)
       w "nextToken" = Some Null).
Proof.
  conjuncts; read_param.
Qed.

(** *** Streaming *)

Lemma stream_call_setup_witness :
  exists req,
    issued (invoke (Str "secret")
              (OnMarketData (MarketData.StreamQuoteChanges (Str "MSFT")))) (ok VNull)
    = [req] /\
    streaming req = true.
Proof.
  apply (stream_call_setup (Str "secret")
           (OnMarketData (MarketData.StreamQuoteChanges (Str "MSFT"))) (ok VNull)).
  reflexivity.
Defined.

Lemma stream_call_exposes_stream_witness :
  In request_streamQuotes
     (issued (invoke (Str "secret")
                (OnMarketData (MarketData.StreamQuoteChanges (Str "MSFT"))))
             (ok (VStr "chunk"))) /\
  exists v,
    outcome (invoke (Str "secret")
               (OnMarketData (MarketData.StreamQuoteChanges (Str "MSFT"))))
            (ok (VStr "chunk")) = Fulfilled v /\
    exposes_stream v = true.
Proof.
  split; [ left; reflexivity | ].
  apply (stream_call_exposes_stream (Str "secret")
           (OnMarketData (MarketData.StreamQuoteChanges (Str "MSFT")))
           (ok (VStr "chunk")) request_streamQuotes
           {| code := 200; payload := VStr "chunk" |});
    solve [ reflexivity | left; reflexivity ].
Defined.

(** X16.  [streamOrders] is the only method that attaches a listener to a
    response: after any other call, however it settles, no listener is
    left behind. *)
Theorem only_streamOrders_listens (token : scalar) (c : call) (w : world) :
  is_streamOrders c = false ->
  listeners (snd (run (invoke token c) w)) = [].
Proof.
  destruct c as [c|c|c|c]; destruct c; try discriminate; intros _; unfold_methods;
    try destruct (is_undefined lastdate); unfold_promise.
  all: match goal with
       | |- context [settle ?q ?o] => destruct (settle q o) as [a|e]
       end; cbn.
  all: unfold get, of_result;
    repeat match goal with
           | |- context [member ?v ?k] => destruct (member v k); cbn
           end.
  all: reflexivity.
Qed.

Lemma only_streamOrders_listens_witness :
  listeners (snd (run (invoke (Str "secret")
                         (OnMarketData (MarketData.StreamQuoteChanges (Str "MSFT"))))
                      (ok (VStr "chunk")))) = [].
Proof.
  apply (only_streamOrders_listens (Str "secret")
           (OnMarketData (MarketData.StreamQuoteChanges (Str "MSFT")))
           (ok (VStr "chunk"))).
  reflexivity.
Defined.
